(** * The book-record lifecycle of server.js

    A shallow embedding of the Express handlers of [server.js] (the session
    gate, the paged list, create, update and the transactional delete) over an
    explicit world: the [books] table, the object bucket [ebook-pdf], the pool
    of database connections and the trace of everything a handler does.

    The relational store and the object store are remote services.  What they
    answer is scripted in the world: every statement sent to the database and
    every [remove] sent to the bucket consumes one scripted outcome, so that a
    theorem quantified over worlds holds whatever the services answer.  A
    statement the database rejects (a lost connection, a violated column
    constraint, a parameter it cannot read) is a scripted fault. *)

From Stdlib Require Import ZArith List String Ascii Bool Lia DecimalString
  Permutation.
Import ListNotations.
Local Open Scope string_scope.
Local Open Scope Z_scope.

(** ** JavaScript values and string primitives *)

Module Js.

(** A field of a parsed JSON body whose data-model type is text: absent
    ([undefined]), [null], or a string. *)
Inductive jsval : Type :=
| JUndefined
| JNull
| JStr (s : string).

(** [!!v] *)
Definition truthy (v : jsval) : bool :=
  match v with
  | JStr s => negb (String.eqb s "")
  | _ => false
  end.

(** [a === b] *)
Definition strict_eq (a b : jsval) : bool :=
  match a, b with
  | JUndefined, JUndefined => true
  | JNull, JNull => true
  | JStr s, JStr t => String.eqb s t
  | _, _ => false
  end.

(** [String(v)] *)
Definition to_string (v : jsval) : string :=
  match v with
  | JUndefined => "undefined"
  | JNull => "null"
  | JStr s => s
  end.

(** [s.startsWith(p)] *)
Definition startsWith (s p : string) : bool := String.prefix p s.

(** [s.includes(p)] *)
Fixpoint includes (s p : string) : bool :=
  String.prefix p s ||
  match s with
  | EmptyString => false
  | String _ s' => includes s' p
  end.

(** [s.split(sep)] for a separator string.  [skip] counts the characters of
    a separator just matched that are still to be dropped, [cur] is the piece
    being collected. *)
Fixpoint split_go (sep : string) (skip : nat) (cur s : string) : list string :=
  match s with
  | EmptyString => [cur]
  | String c s' =>
      match skip with
      | S k => split_go sep k cur s'
      | O =>
          if String.prefix sep s
          then cur :: split_go sep (Nat.pred (String.length sep)) "" s'
          else split_go sep 0 (cur ++ String c "") s'
      end
  end.

Definition split (s sep : string) : list string :=
  match sep with
  | EmptyString => map (fun c => String c "") (list_ascii_of_string s)
  | _ => split_go sep 0 "" s
  end.

(** White space that [parseInt] skips, one-byte part of StrWhiteSpaceChar:
    TAB, LF, VT, FF, CR, SP. *)
Definition is_space (c : ascii) : bool :=
  let n := nat_of_ascii c in
  ((9 <=? n) && (n <=? 13))%nat || (n =? 32)%nat.

(** The rest of StrWhiteSpaceChar.  A string holds the UTF-8 bytes of the
    text, so these characters are two or three bytes long: U+00A0 is
    [C2 A0]; U+1680 is [E1 9A 80]; U+2000 to U+200A, U+2028, U+2029 and
    U+202F are [E2 80 xx]; U+205F is [E2 81 9F]; U+3000 is [E3 80 80];
    U+FEFF is [EF BB BF]. *)
Definition is_space2 (a b : ascii) : bool :=
  ((nat_of_ascii a =? 194) && (nat_of_ascii b =? 160))%nat.

Definition is_space3 (a b c : ascii) : bool :=
  let x := nat_of_ascii a in
  let y := nat_of_ascii b in
  let z := nat_of_ascii c in
  ((x =? 225) && (y =? 154) && (z =? 128)
   || (x =? 226) && (y =? 128)
      && ((128 <=? z) && (z <=? 138) || (z =? 168) || (z =? 169) || (z =? 175))
   || (x =? 226) && (y =? 129) && (z =? 159)
   || (x =? 227) && (y =? 128) && (z =? 128)
   || (x =? 239) && (y =? 187) && (z =? 191))%nat.

Fixpoint trim_start (s : string) : string :=
  match s with
  | EmptyString => s
  | String a s1 =>
      if is_space a then trim_start s1
      else
        match s1 with
        | EmptyString => s
        | String b s2 =>
            if is_space2 a b then trim_start s2
            else
              match s2 with
              | EmptyString => s
              | String c s3 =>
                  if is_space3 a b c then trim_start s3 else s
              end
        end
  end.

(** Value of a character as a digit of the given radix (10 or 16). *)
Definition digit (radix : Z) (c : ascii) : option Z :=
  let n := Z.of_nat (nat_of_ascii c) in
  let v :=
    if (48 <=? n) && (n <=? 57) then Some (n - 48)
    else if (97 <=? n) && (n <=? 122) then Some (n - 87)
    else if (65 <=? n) && (n <=? 90) then Some (n - 55)
    else None in
  match v with
  | Some d => if d <? radix then Some d else None
  | None => None
  end.

(** The longest prefix of digits, read as a number; [acc] is [None] until
    the first digit is seen. *)
Fixpoint digits (radix : Z) (acc : option Z) (s : string) : option Z :=
  match s with
  | EmptyString => acc
  | String c s' =>
      match digit radix c with
      | Some d =>
          digits radix
            (Some (match acc with Some a => a * radix + d | None => d end)) s'
      | None => acc
      end
  end.

(** [parseInt(s)] with no radix argument; [None] is [NaN].  The result is
    the exact integer the digits denote, which is the number JavaScript
    computes as long as it is below [2^53] in absolute value ([exact]
    below); beyond that JavaScript rounds to the nearest double, which is
    not modelled, and the statements that depend on the value of a parsed
    number carry the bound. *)
Definition parseInt (s : string) : option Z :=
  let s := trim_start s in
  let '(sign, s) :=
    match s with
    | String "-" r => (-1, r)
    | String "+" r => (1, r)
    | _ => (1, s)
    end in
  let '(radix, s) :=
    match s with
    | String "0" (String "x" r) => (16, r)
    | String "0" (String "X" r) => (16, r)
    | _ => (10, s)
    end in
  option_map (Z.mul sign) (digits radix None s).

(** [n || d] on numbers: [NaN] and [0] are falsy. *)
Definition or_default (n : option Z) (d : Z) : Z :=
  match n with
  | Some v => if v =? 0 then d else v
  | None => d
  end.

(** The integers a double holds exactly: sums, differences and products of
    integers are exact in JavaScript while they stay in this range. *)
Definition exact (n : Z) : Prop := Z.abs n <= 2 ^ 53.

(** [Math.ceil(a / b)] for integers [a] and [b <> 0]. *)
Definition ceil_div (a b : Z) : Z := - ((- a) / b).

End Js.

(** ** The books table *)

Module Book.

(** A row of [books]: [id SERIAL PRIMARY KEY], [title], [description],
    [thumbnail_base64], [pdf_url], [created_at].  A column is [None] when it
    holds SQL NULL. *)
Record t : Type := {
  id : Z;
  title : option string;
  description : option string;
  thumbnail_base64 : option string;
  pdf_url : option string;
  created_at : Z
}.

End Book.

(** The statements the handlers send, with their parameters. *)
Inductive stmt : Type :=
| SqlBegin
| SqlCommit
| SqlRollback
| SqlSelectAll
| SqlSelectPage (limit offset : Z)
| SqlCount
| SqlInsert (title description thumbnail_base64 pdf_url : option string)
| SqlUpdate (title description thumbnail_base64 pdf_url : option string) (id : Z)
| SqlSelectPdfUrl (id : Z)
| SqlDelete (id : Z).

(** What a statement answers.  The [count] column arrives as decimal text and
    the handler reads it back with [parseInt]; the answer carries the number. *)
Inductive qresult : Type :=
| QDone
| QBooks (rows : list Book.t)
| QPdfUrls (rows : list (option string))
| QCount (count : Z).

Definition rows_of (r : qresult) : list Book.t :=
  match r with QBooks l => l | _ => [] end.

Definition pdf_urls_of (r : qresult) : list (option string) :=
  match r with QPdfUrls l => l | _ => [] end.

Definition count_of (r : qresult) : Z :=
  match r with QCount n => n | _ => 0 end.

Module Store.

(** The database: the committed rows, the working copy of the transaction
    open on the dedicated client (if any), the [id] sequence and the clock
    behind [CURRENT_TIMESTAMP]. *)
Record t : Type := {
  table : list Book.t;
  tx : option (list Book.t);
  next_id : Z;
  clock : Z
}.

Definition has_id (i : Z) (b : Book.t) : bool := Book.id b =? i.

(** [ORDER BY created_at DESC] *)
Fixpoint insert_desc (b : Book.t) (l : list Book.t) : list Book.t :=
  match l with
  | [] => [b]
  | x :: r =>
      if Book.created_at x <=? Book.created_at b then b :: l
      else x :: insert_desc b r
  end.

Definition order_desc (l : list Book.t) : list Book.t :=
  fold_right insert_desc [] l.

Definition overwrite (t d th p : option string) (b : Book.t) : Book.t :=
  {| Book.id := Book.id b;
     Book.title := t;
     Book.description := d;
     Book.thumbnail_base64 := th;
     Book.pdf_url := p;
     Book.created_at := Book.created_at b |}.

(** One statement against a set of rows: its answer and the rows after it,
    or [None] when the statement is in error ([LIMIT] and [OFFSET] must not
    be negative).  A [LIMIT] or [OFFSET] beyond the bigint range, which the
    database cannot read, is not an error here: like every statement the
    database rejects, it is a fault of the script. *)
Definition eval (q : stmt) (nid now : Z) (rows : list Book.t)
  : option (qresult * list Book.t) :=
  match q with
  | SqlSelectAll => Some (QBooks (order_desc rows), rows)
  | SqlSelectPage limit offset =>
      if (limit <? 0) || (offset <? 0) then None
      else Some (QBooks (firstn (Z.to_nat limit)
                           (skipn (Z.to_nat offset) (order_desc rows))), rows)
  | SqlCount => Some (QCount (Z.of_nat (List.length rows)), rows)
  | SqlInsert t d th p =>
      Some (QDone,
            (rows ++ [{| Book.id := nid; Book.title := t; Book.description := d;
                         Book.thumbnail_base64 := th; Book.pdf_url := p;
                         Book.created_at := now |}])%list)
  | SqlUpdate t d th p i =>
      Some (QDone,
            map (fun b => if has_id i b then overwrite t d th p b else b) rows)
  | SqlSelectPdfUrl i =>
      Some (QPdfUrls (map Book.pdf_url (filter (has_id i) rows)), rows)
  | SqlDelete i => Some (QDone, filter (fun b => negb (has_id i b)) rows)
  | SqlBegin | SqlCommit | SqlRollback => Some (QDone, rows)
  end.

Definition is_insert (q : stmt) : bool :=
  match q with SqlInsert _ _ _ _ => true | _ => false end.

Definition tick (q : stmt) (n : Z) : Z := if is_insert q then n + 1 else n.

(** [pool.query]: the statement runs on its own, against the committed rows. *)
Definition pool_exec (q : stmt) (s : t) : option (qresult * t) :=
  match eval q (next_id s) (clock s) (table s) with
  | Some (r, rows) =>
      Some (r, {| table := rows; tx := tx s;
                  next_id := tick q (next_id s); clock := tick q (clock s) |})
  | None => None
  end.

(** The rows the dedicated client sees. *)
Definition view (s : t) : list Book.t :=
  match tx s with Some rows => rows | None => table s end.

(** [client.query]: [BEGIN] opens a working copy, the statements that follow
    act on it, [COMMIT] installs it and [ROLLBACK] drops it. *)
Definition client_exec (q : stmt) (s : t) : option (qresult * t) :=
  match q with
  | SqlBegin =>
      Some (QDone, {| table := table s; tx := Some (view s);
                      next_id := next_id s; clock := clock s |})
  | SqlCommit =>
      Some (QDone, {| table := view s; tx := None;
                      next_id := next_id s; clock := clock s |})
  | SqlRollback =>
      Some (QDone, {| table := table s; tx := None;
                      next_id := next_id s; clock := clock s |})
  | _ =>
      match eval q (next_id s) (clock s) (view s) with
      | Some (r, rows) =>
          Some (r,
                match tx s with
                | Some _ => {| table := table s; tx := Some rows;
                               next_id := tick q (next_id s);
                               clock := tick q (clock s) |}
                | None => {| table := rows; tx := None;
                             next_id := tick q (next_id s);
                             clock := tick q (clock s) |}
                end)
      | None => None
      end
  end.

End Store.

(** ** The world a handler runs in *)

(** What the database answers to the next call: it serves it, or rejects it
    with a message. *)
Inductive db_outcome : Type :=
| DbOk
| DbFail (message : string).

(** What the bucket answers to the next [remove]: the object is removed, the
    call resolves to [{ error }], or the call rejects. *)
Inductive remove_outcome : Type :=
| RemoveOk
| RemoveError
| RemoveThrows (message : string).

Inductive body : Type :=
| Ack (success : bool) (message : string)
| BookRows (rows : list Book.t)
| BookPage (books : list Book.t) (currentPage totalPages totalBooks : Z)
| SendFile (name : string)
| RedirectTo (location : string).

Record response : Type := { status : Z; payload : body }.

(** Everything a handler does that is visible outside it, in order. *)
Inductive event : Type :=
| EConnect (ok : bool)
| EPoolQuery (q : stmt) (ok : bool)
| EClientQuery (q : stmt) (ok : bool)
| ERelease
| ECleanup (url : Js.jsval)
| ERemove (key : string)
| EWarn (message : string)
| EError (message : string)
| ESend (status : Z).

Record world : Type := {
  db : Store.t;
  objects : list string;
  db_script : list db_outcome;
  storage_script : list remove_outcome;
  client : bool;
  checked_out : nat;
  trace : list event;
  sent : option response
}.

Definition set_db (s : Store.t) (w : world) : world :=
  {| db := s; objects := objects w; db_script := db_script w;
     storage_script := storage_script w; client := client w;
     checked_out := checked_out w; trace := trace w; sent := sent w |}.

Definition set_objects (o : list string) (w : world) : world :=
  {| db := db w; objects := o; db_script := db_script w;
     storage_script := storage_script w; client := client w;
     checked_out := checked_out w; trace := trace w; sent := sent w |}.

Definition set_db_script (l : list db_outcome) (w : world) : world :=
  {| db := db w; objects := objects w; db_script := l;
     storage_script := storage_script w; client := client w;
     checked_out := checked_out w; trace := trace w; sent := sent w |}.

Definition set_storage_script (l : list remove_outcome) (w : world) : world :=
  {| db := db w; objects := objects w; db_script := db_script w;
     storage_script := l; client := client w;
     checked_out := checked_out w; trace := trace w; sent := sent w |}.

Definition set_client (c : bool) (n : nat) (w : world) : world :=
  {| db := db w; objects := objects w; db_script := db_script w;
     storage_script := storage_script w; client := c;
     checked_out := n; trace := trace w; sent := sent w |}.

Definition add_event (e : event) (w : world) : world :=
  {| db := db w; objects := objects w; db_script := db_script w;
     storage_script := storage_script w; client := client w;
     checked_out := checked_out w; trace := (trace w ++ [e])%list; sent := sent w |}.

Definition set_sent (r : response) (w : world) : world :=
  {| db := db w; objects := objects w; db_script := db_script w;
     storage_script := storage_script w; client := client w;
     checked_out := checked_out w; trace := trace w;
     sent := Some r |}.

(** ** Handlers as computations: state, exceptions, [try], [finally] *)

(** A thrown value is an [Error]; the handlers only read its [message]. *)
Definition exn : Type := string.

Inductive outcome (A : Type) : Type :=
| Returned (a : A)
| Thrown (e : exn).
Arguments Returned {A} a.
Arguments Thrown {A} e.

Definition M (A : Type) : Type := world -> outcome A * world.

Definition ret {A} (a : A) : M A := fun w => (Returned a, w).

Definition bind {A B} (c : M A) (k : A -> M B) : M B :=
  fun w =>
    match c w with
    | (Returned a, w') => k a w'
    | (Thrown e, w') => (Thrown e, w')
    end.

Definition throw {A} (e : exn) : M A := fun w => (Thrown e, w).

(** [try { body } catch (err) { handler }] *)
Definition try_catch {A} (body : M A) (handler : exn -> M A) : M A :=
  fun w =>
    match body w with
    | (Returned a, w') => (Returned a, w')
    | (Thrown e, w') => handler e w'
    end.

(** [try { body } finally { fin }] *)
Definition try_finally {A} (body : M A) (fin : M unit) : M A :=
  fun w =>
    match body w with
    | (r, w') =>
        match fin w' with
        | (Returned _, w'') => (r, w'')
        | (Thrown e, w'') => (Thrown e, w'')
        end
    end.

Declare Scope js_scope.
Delimit Scope js_scope with js.
Notation "x <- c ;; k" := (bind c (fun x => k))
  (at level 61, c at next level, right associativity) : js_scope.
Notation "c ;; k" := (bind c (fun _ => k))
  (at level 61, right associativity) : js_scope.
Local Open Scope js_scope.

Definition emit (e : event) : M unit := fun w => (Returned tt, add_event e w).

(** The next scripted answer of the database; an exhausted script serves. *)
Definition next_db : M db_outcome :=
  fun w =>
    match db_script w with
    | [] => (Returned DbOk, w)
    | o :: rest => (Returned o, set_db_script rest w)
    end.

Definition next_remove : M remove_outcome :=
  fun w =>
    match storage_script w with
    | [] => (Returned RemoveOk, w)
    | o :: rest => (Returned o, set_storage_script rest w)
    end.

(** [client = await pool.connect()]: the variable is assigned only when the
    call resolves. *)
Definition pool_connect : M unit :=
  o <- next_db ;;
  match o with
  | DbOk =>
      emit (EConnect true) ;;
      fun w => (Returned tt, set_client true (S (checked_out w)) w)
  | DbFail m => emit (EConnect false) ;; throw m
  end.

(** [client.release()] *)
Definition client_release : M unit :=
  emit ERelease ;;
  fun w =>
    match checked_out w with
    | S n => (Returned tt, set_client (client w) n w)
    | O => (Thrown "Release called on client which has already been released to the pool.", w)
    end.

Definition run_stmt (exec : stmt -> Store.t -> option (qresult * Store.t))
    (record : stmt -> bool -> event) (q : stmt) : M qresult :=
  o <- next_db ;;
  match o with
  | DbFail m => emit (record q false) ;; throw m
  | DbOk =>
      fun w =>
        match exec q (db w) with
        | Some (r, s) => (Returned r, add_event (record q true) (set_db s w))
        | None =>
            (Thrown "LIMIT or OFFSET must not be negative",
             add_event (record q false) w)
        end
  end.

(** [await pool.query(q)] *)
Definition pool_query : stmt -> M qresult :=
  run_stmt Store.pool_exec EPoolQuery.

(** [await client.query(q)] *)
Definition client_query : stmt -> M qresult :=
  run_stmt Store.client_exec EClientQuery.

(** [await supabaseAdmin.storage.from('ebook-pdf').remove([key])] *)
Definition storage_remove (key : string) : M unit :=
  emit (ERemove key) ;;
  o <- next_remove ;;
  match o with
  | RemoveOk =>
      fun w =>
        (Returned tt,
         set_objects (filter (fun k => negb (String.eqb k key)) (objects w)) w)
  | RemoveError => ret tt
  | RemoveThrows m => throw m
  end.

Definition console_warn (m : string) : M unit := emit (EWarn m).
Definition console_error (m : string) : M unit := emit (EError m).

(** [res.status(code).json(payload)], [res.redirect], [res.sendFile] *)
Definition respond (code : Z) (p : body) : M unit :=
  fun w =>
    (Returned tt,
     add_event (ESend code) (set_sent {| status := code; payload := p |} w)).

(** SQL parameter of a body field: [undefined] and [null] are sent as NULL. *)
Definition sql_text (v : Js.jsval) : option string :=
  match v with
  | Js.JStr s => Some s
  | _ => None
  end.

(** A column read back from a row. *)
Definition column (c : option string) : Js.jsval :=
  match c with
  | Some s => Js.JStr s
  | None => Js.JNull
  end.

(** [err.message || 'Server error'] *)
Definition message_or (m d : string) : string :=
  if String.eqb m "" then d else m.

(** ** Requests *)

Inductive route : Type :=
| GetDashboard
| GetCheckAuth
| GetPublicBooks
| GetBooks
| PostBooks
| PutBook (id : Z)
| DeleteBook (id : Z).

(** The path a route is mounted at, with the [:id] segment filled in by the
    decimal text of the key. *)
Definition route_path (r : route) : string :=
  match r with
  | GetDashboard => "/dashboard"
  | GetCheckAuth => "/api/check-auth"
  | GetPublicBooks => "/api/public/books"
  | GetBooks | PostBooks => "/api/books"
  | PutBook i | DeleteBook i =>
      "/api/books/" ++ NilZero.string_of_int (Z.to_int i)
  end.

(** [s.toLowerCase()] on ASCII letters *)
Definition lower_char (c : ascii) : ascii :=
  let n := nat_of_ascii c in
  if ((65 <=? n) && (n <=? 90))%nat then ascii_of_nat (n + 32) else c.

Fixpoint lower (s : string) : string :=
  match s with
  | EmptyString => EmptyString
  | String c s' => String (lower_char c) (lower s')
  end.

(** Express matches the path of a request against the path of a route
    without regard to letter case and allows one trailing slash (the
    defaults of [case sensitive routing] and [strict routing]).  A path
    spelled [p] therefore reaches the route [r] when [matches p r] holds;
    [req.path] stays as it was sent. *)
Definition matches (p : string) (r : route) : bool :=
  String.eqb (lower p) (route_path r)
  || String.eqb (lower p) (route_path r ++ "/").

Module Req.

(** What the handlers read of a request: the matched route, [req.path] as
    the client spelled it, the [session] cookie, [req.xhr], the [Accept]
    header, the [page] and [limit] query values, and the text fields of the
    JSON body. *)
Record t : Type := {
  target : route;
  path : string;
  session : option string;
  xhr : bool;
  accept : option string;
  page : option string;
  limit : option string;
  title : Js.jsval;
  description : Js.jsval;
  thumbnail_base64 : Js.jsval;
  pdf_url : Js.jsval;
  old_pdf_url : Js.jsval
}.


(** The same request with the path spelled another way. *)
Definition with_path (p : string) (r : t) : t :=
  {| target := target r; path := p; session := session r;
     xhr := xhr r; accept := accept r; page := page r; limit := limit r;
     title := title r; description := description r;
     thumbnail_base64 := thumbnail_base64 r; pdf_url := pdf_url r;
     old_pdf_url := old_pdf_url r |}.

End Req.

(** The request is one the router hands to the handler of its target. *)
Definition routed (req : Req.t) : Prop :=
  matches (Req.path req) (Req.target req) = true.

(** [parseInt(req.query.x)]: an absent value is [undefined]. *)
Definition parse_query (v : option string) : option Z :=
  Js.parseInt (match v with Some s => s | None => "undefined" end).

(** ** The handlers *)

Section Handlers.

(** [new URL(s).pathname], a service of the platform: [None] when the
    constructor throws. *)
Variable url_pathname : string -> option string.

Definition new_URL_pathname (v : Js.jsval) : M string :=
  match url_pathname (Js.to_string v) with
  | Some p => ret p
  | None => throw "Invalid URL"
  end.

(** [new URL(u).pathname.split('/ebook-pdf/')[1]] on the path *)
Definition key_of_path (p : string) : option string :=
  nth_error (Js.split p "/ebook-pdf/") 1.

(** The cleanup block of update and delete:
    [try { const f = new URL(u).pathname.split('/ebook-pdf/')[1];
           if (f) await ...remove([f]); }
     catch (e) { console.warn(label, e.message); }] *)
Definition object_cleanup (label : string) (u : Js.jsval) : M unit :=
  emit (ECleanup u) ;;
  try_catch
    (p <- new_URL_pathname u ;;
     match key_of_path p with
     | Some filePath =>
         if negb (String.eqb filePath "") then storage_remove filePath
         else ret tt
     | None => ret tt
     end)
    (fun e => console_warn (label ++ " " ++ e)).

(** [authMiddleware] *)
Definition authMiddleware (req : Req.t) (next : M unit) : M unit :=
  let sessionToken := Req.session req in
  if match sessionToken with
     | Some s => String.eqb s "admin_logged_in"
     | None => false
     end
  then next
  else
    let isApiRequest :=
      Req.xhr req
      || match Req.accept req with
         | Some a => Js.includes a "application/json"
         | None => false
         end
      || Js.startsWith (Req.path req) "/api/" in
    if isApiRequest
    then respond 401 (Ack false "Akses ditolak. Silakan login terlebih dahulu.")
    else respond 302 (RedirectTo "/login").

(** [GET /api/public/books] *)
Definition get_public_books : M unit :=
  try_catch
    (result <- pool_query SqlSelectAll ;;
     respond 200 (BookRows (rows_of result)))
    (fun err =>
       console_error err ;;
       respond 500 (Ack false "Server error")).

(** [GET /api/books] *)
Definition get_books (req : Req.t) : M unit :=
  let page := Js.or_default (parse_query (Req.page req)) 1 in
  let limit := Js.or_default (parse_query (Req.limit req)) 5 in
  let offset := (page - 1) * limit in
  try_catch
    (booksQuery <- pool_query (SqlSelectPage limit offset) ;;
     totalQuery <- pool_query SqlCount ;;
     let totalBooks := count_of totalQuery in
     let totalPages := Js.ceil_div totalBooks limit in
     respond 200 (BookPage (rows_of booksQuery) page totalPages totalBooks))
    (fun err =>
       console_error err ;;
       respond 500 (Ack false "Server error")).

(** [POST /api/books] *)
Definition post_books (req : Req.t) : M unit :=
  let title := Req.title req in
  let description := Req.description req in
  let thumbnail_base64 := Req.thumbnail_base64 req in
  let pdf_url := Req.pdf_url req in
  if negb (Js.truthy title) || negb (Js.truthy thumbnail_base64)
     || negb (Js.truthy pdf_url)
  then respond 400 (Ack false "Data tidak lengkap")
  else
    try_catch
      (pool_query (SqlInsert (sql_text title) (sql_text description)
                     (sql_text thumbnail_base64) (sql_text pdf_url)) ;;
       respond 201 (Ack true "Buku berhasil ditambahkan"))
      (fun err =>
         console_error err ;;
         respond 500 (Ack false (message_or err "Server error"))).

(** [PUT /api/books/:id] *)
Definition put_book (id : Z) (req : Req.t) : M unit :=
  let title := Req.title req in
  let description := Req.description req in
  let thumbnail_base64 := Req.thumbnail_base64 req in
  let pdf_url := Req.pdf_url req in
  let old_pdf_url := Req.old_pdf_url req in
  try_catch
    (pool_query (SqlUpdate (sql_text title) (sql_text description)
                   (sql_text thumbnail_base64) (sql_text pdf_url) id) ;;
     (if Js.truthy old_pdf_url && negb (Js.strict_eq old_pdf_url pdf_url)
      then object_cleanup "Gagal hapus file lama di Supabase:" old_pdf_url
      else ret tt) ;;
     respond 200 (Ack true "Buku berhasil diperbarui"))
    (fun err =>
       console_error err ;;
       respond 500 (Ack false (message_or err "Server error"))).

(** [if (client) ...] on the handler's variable *)
Definition if_client (c : M unit) : M unit :=
  fun w => if client w then c w else (Returned tt, w).

(** [DELETE /api/books/:id]; [let client;] starts the variable undefined. *)
Definition delete_book (id : Z) : M unit :=
  (fun w => (Returned tt, set_client false (checked_out w) w)) ;;
  try_finally
    (try_catch
       (pool_connect ;;
        client_query SqlBegin ;;
        bookQuery <- client_query (SqlSelectPdfUrl id) ;;
        match pdf_urls_of bookQuery with
        | [] =>
            client_query SqlRollback ;;
            respond 404 (Ack false "Buku tidak ditemukan")
        | pdf_url :: _ =>
            client_query (SqlDelete id) ;;
            object_cleanup "Gagal hapus file Supabase (DB sudah dihapus):"
              (column pdf_url) ;;
            client_query SqlCommit ;;
            respond 200 (Ack true "Buku berhasil dihapus")
        end)
       (fun err =>
          if_client (client_query SqlRollback ;; ret tt) ;;
          console_error err ;;
          respond 500 (Ack false "Server error saat menghapus")))
    (if_client client_release).

(** The routes and their middleware. *)
Definition app (req : Req.t) : M unit :=
  match Req.target req with
  | GetDashboard => authMiddleware req (respond 200 (SendFile "dashboard.html"))
  | GetCheckAuth =>
      authMiddleware req (respond 200 (Ack true "Autentikasi valid"))
  | GetPublicBooks => get_public_books
  | GetBooks => authMiddleware req (get_books req)
  | PostBooks => authMiddleware req (post_books req)
  | PutBook id => authMiddleware req (put_book id req)
  | DeleteBook id => authMiddleware req (delete_book id)
  end.

End Handlers.

(** A reading of URLs of the form [scheme://host/path?query#fragment], used
    to run the handlers on examples. *)
Module SampleUrl.

Fixpoint until_path (s : string) : option string :=
  match s with
  | EmptyString => Some "/"
  | String "/" _ => Some s
  | String _ r => until_path r
  end.

Fixpoint cut (s : string) : string :=
  match s with
  | EmptyString => ""
  | String "?" _ => ""
  | String "#" _ => ""
  | String c r => String c (cut r)
  end.

Fixpoint after_scheme (s : string) : option string :=
  match s with
  | String ":" (String "/" (String "/" r)) => Some r
  | String _ r => after_scheme r
  | EmptyString => None
  end.

Definition pathname (s : string) : option string :=
  match after_scheme s with
  | Some r => option_map cut (until_path r)
  | None => None
  end.

End SampleUrl.

(** ** Reading traces and scripts *)

(** The URLs for which the cleanup block was entered. *)
Definition cleanups (evs : list event) : list Js.jsval :=
  flat_map (fun e => match e with ECleanup u => [u] | _ => [] end) evs.

(** The keys whose removal was requested from the bucket. *)
Definition removes (evs : list event) : list string :=
  flat_map (fun e => match e with ERemove k => [k] | _ => [] end) evs.

Definition is_release (e : event) : bool :=
  match e with ERelease => true | _ => false end.

(** The number of [client.release()] calls. *)
Definition releases (evs : list event) : nat :=
  List.length (filter is_release evs).

(** The events of the cleanup block: the remote call and the warning. *)
Definition cleanup_event (e : event) : bool :=
  match e with
  | ECleanup _ | ERemove _ | EWarn _ => true
  | _ => false
  end.

Definition is_ok (o : db_outcome) : bool :=
  match o with DbOk => true | DbFail _ => false end.

(** The database serves the next [n] calls made to it. *)
Definition serves (n : nat) (w : world) : Prop :=
  forallb is_ok (firstn n (db_script w)) = true.

(** The rows of the committed table with the given key. *)
Definition rows_with_id (i : Z) (w : world) : list Book.t :=
  filter (Store.has_id i) (Store.table (db w)).

Definition without_id (i : Z) (rows : list Book.t) : list Book.t :=
  filter (fun b => negb (Store.has_id i b)) rows.


(** The field carries a URL. *)
Definition present (v : Js.jsval) : Prop :=
  exists s, v = Js.JStr s /\ s <> "".

(** The field is missing or empty. *)
Definition missing_or_empty (v : Js.jsval) : Prop :=
  v = Js.JUndefined \/ v = Js.JNull \/ v = Js.JStr "".

(** The row [INSERT] adds for a request: the key and the timestamp come from
    the sequence and the clock of the database. *)
Definition created_row (req : Req.t) (s : Store.t) : Book.t :=
  {| Book.id := Store.next_id s;
     Book.title := sql_text (Req.title req);
     Book.description := sql_text (Req.description req);
     Book.thumbnail_base64 := sql_text (Req.thumbnail_base64 req);
     Book.pdf_url := sql_text (Req.pdf_url req);
     Book.created_at := Store.clock s |}.

(** The protected endpoints of the API. *)
Definition protected_api (r : route) : Prop :=
  r = GetBooks \/ r = PostBooks \/ (exists i, r = PutBook i) \/
  (exists i, r = DeleteBook i) \/ r = GetCheckAuth.

(** [isApiRequest] of [authMiddleware] *)
Definition isApiRequest (req : Req.t) : bool :=
  Req.xhr req
  || match Req.accept req with
     | Some a => Js.includes a "application/json"
     | None => false
     end
  || Js.startsWith (Req.path req) "/api/".

(** What the gate answers to a request without the marker. *)
Definition gate_answer (req : Req.t) : response :=
  if isApiRequest req
  then {| status := 401;
          payload := Ack false "Akses ditolak. Silakan login terlebih dahulu." |}
  else {| status := 302; payload := RedirectTo "/login" |}.

(** The separator occurs in [a ++ sep ++ k] at the end of [a] and nowhere
    before. *)
Definition first_at (sep a k : string) : Prop :=
  forall a1 a2, a = (a1 ++ a2)%string -> a2 <> "" ->
                String.prefix sep (a2 ++ sep ++ k) = false.

(** What the [catch] block of delete adds to the trace after an error: the
    rollback, the logged error, the 500 and the release; or, when the rollback
    is itself rejected, the release alone. *)
Inductive recovery : list event -> Prop :=
| rolled_back m :
    recovery [EClientQuery SqlRollback true; EError m; ESend 500; ERelease]
| rollback_rejected :
    recovery [EClientQuery SqlRollback false; ERelease].

(** The runs of delete, as the events they leave. *)
Inductive delete_path (id : Z) : list event -> Prop :=
| path_no_connection m :
    delete_path id [EConnect false; EError m; ESend 500]
| path_begin_rejected r :
    recovery r ->
    delete_path id (EConnect true :: EClientQuery SqlBegin false :: r)
| path_lookup_rejected r :
    recovery r ->
    delete_path id
      (EConnect true :: EClientQuery SqlBegin true
       :: EClientQuery (SqlSelectPdfUrl id) false :: r)
| path_not_found :
    delete_path id
      [EConnect true; EClientQuery SqlBegin true;
       EClientQuery (SqlSelectPdfUrl id) true;
       EClientQuery SqlRollback true; ESend 404; ERelease]
| path_not_found_rejected r :
    recovery r ->
    delete_path id
      (EConnect true :: EClientQuery SqlBegin true
       :: EClientQuery (SqlSelectPdfUrl id) true
       :: EClientQuery SqlRollback false :: r)
| path_delete_rejected r :
    recovery r ->
    delete_path id
      (EConnect true :: EClientQuery SqlBegin true
       :: EClientQuery (SqlSelectPdfUrl id) true
       :: EClientQuery (SqlDelete id) false :: r)
| path_committed u evs :
    forallb cleanup_event evs = true ->
    delete_path id
      (EConnect true :: EClientQuery SqlBegin true
       :: EClientQuery (SqlSelectPdfUrl id) true
       :: EClientQuery (SqlDelete id) true
       :: ECleanup u
       :: (evs ++ [EClientQuery SqlCommit true; ESend 200; ERelease])%list)
| path_commit_rejected u evs r :
    forallb cleanup_event evs = true ->
    recovery r ->
    delete_path id
      (EConnect true :: EClientQuery SqlBegin true
       :: EClientQuery (SqlSelectPdfUrl id) true
       :: EClientQuery (SqlDelete id) true
       :: ECleanup u
       :: (evs ++ EClientQuery SqlCommit false :: r)%list).

(** The world after the bucket has answered the [remove] of key [k], [w]
    being the world in which the call went out: the object goes when the
    bucket says so, and a rejection is logged under [label]. *)
Definition bucket_answer (label k : string) (w : world) : world :=
  match storage_script w with
  | [] =>
      set_objects (filter (fun o => negb (String.eqb o k)) (objects w)) w
  | RemoveOk :: rest =>
      set_objects (filter (fun o => negb (String.eqb o k)) (objects w))
        (set_storage_script rest w)
  | RemoveError :: rest => set_storage_script rest w
  | RemoveThrows m :: rest =>
      add_event (EWarn (label ++ " " ++ m)) (set_storage_script rest w)
  end.

(** The calls of one cleanup block to the bucket, as the code makes them:
    one, for the key, when the URL parses and [split] finds a key that is not
    empty; none otherwise. *)
Definition bucket_calls (url_pathname : string -> option string)
    (u : Js.jsval) : list string :=
  match url_pathname (Js.to_string u) with
  | Some p =>
      match key_of_path p with
      | Some k => if String.eqb k "" then [] else [k]
      | None => []
      end
  | None => []
  end.

(** The bucket after these calls: the object of a call is gone when the
    bucket answers it, and the bucket is as before when the call fails. *)
Definition bucket_after (calls : list string) (answers : list remove_outcome)
    (objs : list string) : list string :=
  match calls, answers with
  | k :: _, ([] | RemoveOk :: _) =>
      filter (fun o => negb (String.eqb o k)) objs
  | _, _ => objs
  end.

(** ** Sample worlds and requests *)

Module Sample.

Definition book1 : Book.t :=
  {| Book.id := 1; Book.title := Some "A"; Book.description := None;
     Book.thumbnail_base64 := Some "x";
     Book.pdf_url := Some "https://store/ebook-pdf/a.pdf";
     Book.created_at := 10 |}.

(** A book whose object key has a folder named like the bucket. *)
Definition book2 : Book.t :=
  {| Book.id := 2; Book.title := Some "B"; Book.description := None;
     Book.thumbnail_base64 := Some "y";
     Book.pdf_url :=
       Some "https://x.supabase.co/storage/v1/object/public/ebook-pdf/a/ebook-pdf/b.pdf";
     Book.created_at := 11 |}.

(** A world with the two books and their objects, in which the database and
    the bucket answer as scripted. *)
Definition world_of (dbs : list db_outcome) (sts : list remove_outcome)
  : world :=
  {| db := {| Store.table := [book1; book2]; Store.tx := None;
              Store.next_id := 3; Store.clock := 12 |};
     objects := ["a.pdf"; "a"; "a/ebook-pdf/b.pdf"];
     db_script := dbs; storage_script := sts;
     client := false; checked_out := 0; trace := []; sent := None |}.

Definition request (r : route) (cookie : option string) : Req.t :=
  {| Req.target := r; Req.path := route_path r; Req.session := cookie; Req.xhr := false;
     Req.accept := None; Req.page := None; Req.limit := None;
     Req.title := Js.JStr "C"; Req.description := Js.JUndefined;
     Req.thumbnail_base64 := Js.JStr "z";
     Req.pdf_url := Js.JStr "https://store/ebook-pdf/c.pdf";
     Req.old_pdf_url := Js.JStr "https://store/ebook-pdf/a.pdf" |}.

Definition with_page (p : option string) (r : Req.t) : Req.t :=
  {| Req.target := Req.target r; Req.path := Req.path r;
     Req.session := Req.session r;
     Req.xhr := Req.xhr r; Req.accept := Req.accept r;
     Req.page := p; Req.limit := Req.limit r;
     Req.title := Req.title r; Req.description := Req.description r;
     Req.thumbnail_base64 := Req.thumbnail_base64 r;
     Req.pdf_url := Req.pdf_url r; Req.old_pdf_url := Req.old_pdf_url r |}.

(** An empty catalog, with one stray object in the bucket. *)
Definition empty : world :=
  {| db := {| Store.table := []; Store.tx := None;
              Store.next_id := 1; Store.clock := 0 |};
     objects := ["u1.pdf"];
     db_script := []; storage_script := [];
     client := false; checked_out := 0; trace := []; sent := None |}.

(** A request of the logged-in administrator with the given body. *)
Definition admin (r : route) (title thumbnail pdf old : Js.jsval) : Req.t :=
  {| Req.target := r; Req.path := route_path r;
     Req.session := Some "admin_logged_in";
     Req.xhr := false; Req.accept := Some "application/json";
     Req.page := None; Req.limit := None;
     Req.title := title; Req.description := Js.JUndefined;
     Req.thumbnail_base64 := thumbnail; Req.pdf_url := pdf;
     Req.old_pdf_url := old |}.

(** One request after another. *)
Definition then_ (req : Req.t) (w : world) : world :=
  snd (app SampleUrl.pathname req w).

(** The connection handed out by the pool is dead: [BEGIN] is rejected, and
    so is the [ROLLBACK] of the [catch] block. *)
Definition dead_connection : list db_outcome :=
  [DbOk; DbFail "Connection terminated unexpectedly";
   DbFail "Connection terminated unexpectedly"].

End Sample.

Module Witness.

(** The bucket rejects the removal. *)
Definition start : world := Sample.world_of [] [RemoveThrows "timeout"].

Definition old_url : Js.jsval := Js.JStr "https://store/ebook-pdf/a.pdf".

Definition update : Req.t :=
  Sample.request (PutBook 9) (Some "admin_logged_in").

Definition create : Req.t :=
  Sample.request PostBooks (Some "admin_logged_in").



(** [DELETE /API/books/1] with no cookie, no [Accept] header and no
    [X-Requested-With] header. *)
Definition anonymous : Req.t :=
  Req.with_path "/API/books/1" (Sample.request (DeleteBook 1) None).

End Witness.

(** ** Login and logout *)

Module Env.

(** [process.env]: a variable that is not set reads [undefined]. *)
Record t : Type := {
  ADMIN_USERNAME : option string;
  ADMIN_PASSWORD : option string;
  NODE_ENV : option string
}.

Definition read (v : option string) : Js.jsval :=
  match v with
  | Some s => Js.JStr s
  | None => Js.JUndefined
  end.

End Env.

(** The options of [res.cookie]. *)
Record cookie : Type := {
  cookie_name : string;
  cookie_value : string;
  httpOnly : bool;
  secure : bool;
  maxAge : Z
}.

(** What a handler asks the browser to do with its cookies. *)
Inductive cookie_effect : Type :=
| SetCookie (c : cookie)
| ClearCookie (name : string).

(** [POST /api/login] on the [username] and [password] of the body: the
    cookies it sets and the response it sends. *)
Definition post_login (env : Env.t) (username password : Js.jsval)
  : list cookie_effect * response :=
  if Js.strict_eq username (Env.read (Env.ADMIN_USERNAME env))
     && Js.strict_eq password (Env.read (Env.ADMIN_PASSWORD env))
  then
    ([SetCookie
        {| cookie_name := "session";
           cookie_value := "admin_logged_in";
           httpOnly := true;
           secure := Js.strict_eq (Env.read (Env.NODE_ENV env))
                       (Js.JStr "production");
           maxAge := 5 * 24 * 60 * 60 * 1000 |}],
     {| status := 200; payload := Ack true "Login berhasil" |})
  else
    ([], {| status := 401;
            payload := Ack false "Username atau password salah" |}).

(** [POST /api/logout] *)
Definition post_logout : list cookie_effect * response :=
  ([ClearCookie "session"],
   {| status := 200; payload := Ack true "Logout berhasil" |}).

(** The value the browser holds for the [session] cookie after the effects
    of a response, [held] being what it held before. *)
Fixpoint session_after (effects : list cookie_effect) (held : option string)
  : option string :=
  match effects with
  | [] => held
  | SetCookie c :: rest =>
      session_after rest
        (if String.eqb (cookie_name c) "session" then Some (cookie_value c)
         else held)
  | ClearCookie n :: rest =>
      session_after rest (if String.eqb n "session" then None else held)
  end.

(** ** Vocabulary of the further properties *)

(** The database serves every call made to it. *)
Definition healthy (w : world) : Prop :=
  forallb is_ok (db_script w) = true.

(** Rows as the sequence and the clock leave them: keys are unique and below
    the next key, timestamps are before the clock. *)
Definition wf_rows (nid clk : Z) (rows : list Book.t) : Prop :=
  NoDup (map Book.id rows) /\
  Forall (fun b => Book.id b < nid /\ Book.created_at b < clk) rows.

Definition wf_store (s : Store.t) : Prop :=
  wf_rows (Store.next_id s) (Store.clock s) (Store.table s) /\
  match Store.tx s with
  | Some rows => wf_rows (Store.next_id s) (Store.clock s) rows
  | None => True
  end.

(** Newest first. *)
Fixpoint sorted_desc (l : list Book.t) : Prop :=
  match l with
  | [] => True
  | x :: r =>
      Forall (fun y => Book.created_at y <= Book.created_at x) r /\
      sorted_desc r
  end.

(** The rows of a response. *)
Definition books_of (r : option response) : list Book.t :=
  match r with
  | Some {| payload := BookRows rows |} => rows
  | Some {| payload := BookPage rows _ _ _ |} => rows
  | _ => []
  end.

(** The same request for another page. *)
Definition with_query (page limit : option string) (r : Req.t) : Req.t :=
  {| Req.target := Req.target r; Req.path := Req.path r;
     Req.session := Req.session r;
     Req.xhr := Req.xhr r; Req.accept := Req.accept r;
     Req.page := page; Req.limit := limit;
     Req.title := Req.title r; Req.description := Req.description r;
     Req.thumbnail_base64 := Req.thumbnail_base64 r;
     Req.pdf_url := Req.pdf_url r; Req.old_pdf_url := Req.old_pdf_url r |}.

(** The warnings of a run. *)
Definition warnings (evs : list event) : list string :=
  flat_map (fun e => match e with EWarn m => [m] | _ => [] end) evs.

(** The statements of a run that reached the database, served or not. *)
Definition statements (evs : list event) : list stmt :=
  flat_map (fun e =>
              match e with
              | EPoolQuery q _ | EClientQuery q _ => [q]
              | _ => []
              end) evs.

Module Further.

(** The requests for the pages of one row each. *)
Definition pages (p : nat) : Req.t :=
  with_query (Some (match p with O => "1" | _ => "2" end)) (Some "1")
    (Sample.request GetBooks (Some "admin_logged_in")).

(** A request for a page beyond the last. *)
Definition far_page : Req.t :=
  with_query (Some "3") (Some "2")
    (Sample.request GetBooks (Some "admin_logged_in")).

(** The database rejects the next statement. *)
Definition failing : world := Sample.world_of [DbFail "boom"] [].

(** A catalog whose only book points outside the bucket. *)
Definition foreign_book : Book.t :=
  {| Book.id := 1; Book.title := Some "A"; Book.description := None;
     Book.thumbnail_base64 := Some "x";
     Book.pdf_url := Some "https://cdn.example.org/files/a.pdf";
     Book.created_at := 10 |}.

Definition foreign : world :=
  {| db := {| Store.table := [foreign_book]; Store.tx := None;
              Store.next_id := 2; Store.clock := 11 |};
     objects := ["a.pdf"];
     db_script := []; storage_script := [];
     client := false; checked_out := 0; trace := []; sent := None |}.

Definition env : Env.t :=
  {| Env.ADMIN_USERNAME := Some "admin";
     Env.ADMIN_PASSWORD := Some "secret";
     Env.NODE_ENV := Some "production" |}.

Definition dashboard : Req.t := Sample.request GetDashboard None.

Definition public : Req.t := Sample.request GetPublicBooks None.

(** An update with an empty body. *)
Definition blank : Req.t :=
  Sample.admin (PutBook 1) Js.JUndefined Js.JUndefined Js.JUndefined
    Js.JUndefined.

(** [DELETE /api/books/1] from a browser that has logged out. *)
Definition signed_out : Req.t := Sample.request (DeleteBook 1) None.

End Further.

(** ** Lemmas on the primitives *)

Lemma cleanups_app (a b : list event) :
  cleanups (a ++ b) = (cleanups a ++ cleanups b)%list.
Proof. unfold cleanups. apply flat_map_app. Qed.

Lemma removes_app (a b : list event) :
  removes (a ++ b) = (removes a ++ removes b)%list.
Proof. unfold removes. apply flat_map_app. Qed.

Lemma releases_app (a b : list event) :
  releases (a ++ b) = (releases a + releases b)%nat.
Proof. unfold releases. rewrite filter_app, length_app. reflexivity. Qed.

Lemma cleanup_events_no_release (evs : list event) :
  forallb cleanup_event evs = true -> releases evs = 0%nat.
Proof.
  induction evs as [|e evs IH]; [reflexivity|].
  cbn. intros H. apply andb_prop in H. destruct H as [He H].
  destruct e; try discriminate He; apply IH; exact H.
Qed.

Arguments key_of_path : simpl never.
Arguments object_cleanup : simpl never.

Ltac conj := repeat match goal with |- _ /\ _ => split end.

Ltac trace_eq := cbn; rewrite <- ?app_assoc; cbn; reflexivity.

(** The cleanup block always returns, whatever the URL and whatever the bucket
    answers; it touches neither the database, nor the response, nor the
    connection, and all it adds to the trace is its own events: at most one
    remote call, for the key read from the URL, and at most one warning. *)
Lemma object_cleanup_returns (url_pathname : string -> option string)
    (label : string) (u : Js.jsval) (w : world) :
  exists w' evs,
    object_cleanup url_pathname label u w = (Returned tt, w') /\
    db w' = db w /\ sent w' = sent w /\ db_script w' = db_script w /\
    client w' = client w /\ checked_out w' = checked_out w /\
    trace w' = (trace w ++ ECleanup u :: evs)%list /\
    forallb cleanup_event evs = true /\
    cleanups evs = [] /\
    (removes evs = [] \/
     exists p k, url_pathname (Js.to_string u) = Some p /\
                 key_of_path p = Some k /\ k <> "" /\ removes evs = [k]).
Proof.
  cbv beta delta [object_cleanup new_URL_pathname try_catch bind emit
    storage_remove console_warn next_remove throw ret].
  destruct (url_pathname (Js.to_string u)) as [p|] eqn:Hp.
  - destruct (key_of_path p) as [k|] eqn:Hk.
    + destruct (String.eqb k "") eqn:Hke; cbn.
      * eexists; exists []. conj; try reflexivity. now left.
      * apply String.eqb_neq in Hke.
        destruct (storage_script w) as [|[| |m] rest] eqn:Hs; cbn;
          eexists; eexists;
          (conj; [reflexivity | reflexivity | reflexivity | reflexivity
                 | reflexivity | reflexivity | trace_eq | reflexivity
                 | reflexivity | ]);
          right; exists p, k; conj; auto.
    + cbn. eexists; exists []. conj; try reflexivity. now left.
  - cbn. eexists; eexists. conj; try reflexivity; try trace_eq. now left.
Qed.

(** ** Symbolic execution of the handlers *)

Ltac unfold_handlers :=
  cbv beta delta [delete_book put_book post_books get_books get_public_books
    if_client pool_connect client_release pool_query client_query run_stmt
    respond console_error console_warn next_db try_catch try_finally bind emit
    throw ret].

(** Case analysis on the next scripted answer of the database. *)
Ltac script :=
  match goal with
  | |- context [match ?l with [] => _ | _ :: _ => _ end] =>
      match type of l with
      | list db_outcome => destruct l as [|[|?m] ?rest]; cbn
      end
  end.

(** Rewriting with what is known of an intermediate world. *)
Ltac known :=
  repeat (cbn;
    match goal with
    | H : db ?w = _ |- context [db ?w] => rewrite H
    | H : db_script ?w = _ |- context [db_script ?w] => rewrite H
    | H : client ?w = _ |- context [client ?w] => rewrite H
    | H : checked_out ?w = _ |- context [checked_out ?w] => rewrite H
    | H : sent ?w = _ |- context [sent ?w] => rewrite H
    | H : trace ?w = _ |- context [trace ?w] => rewrite H
    end); cbn.

(** Stepping over the cleanup block with [object_cleanup_returns]. *)
Ltac use_cleanup :=
  match goal with
  | |- context [object_cleanup ?p ?l ?u ?W] =>
      let w1 := fresh "w1" in
      let evs := fresh "evs" in
      let E := fresh "E" in
      let Hdb := fresh "Hdb" in let Hsent := fresh "Hsent" in
      let Hscr := fresh "Hscr" in let Hcl := fresh "Hcl" in
      let Hco := fresh "Hco" in let Htr := fresh "Htr" in
      let Hev := fresh "Hev" in let Hc := fresh "Hc" in let Hr := fresh "Hr" in
      destruct (object_cleanup_returns p l u W)
        as (w1 & evs & E & Hdb & Hsent & Hscr & Hcl & Hco & Htr & Hev & Hc & Hr);
      rewrite E; cbn in Hdb, Hsent, Hscr, Hcl, Hco, Htr; known
  end.

(** The rows the lookup of delete finds. *)
Ltac lookup :=
  match goal with
  | |- context [match map Book.pdf_url ?x with _ => _ end] =>
      destruct (map Book.pdf_url x) eqn:?; cbn
  end.

(** The events of a handler that acquired a connection end with its release. *)
Ltac body_of L :=
  match L with
  | [ERelease] => constr:(@nil event)
  | ?x :: ?T => let b := body_of T in constr:(x :: b)
  | (?a ++ ?T)%list => let b := body_of T in constr:((a ++ b)%list)
  end.

Ltac released_last :=
  match goal with
  | |- exists body,
        EConnect true :: ?L = EConnect true :: (body ++ [ERelease])%list /\ _ =>
      let b := body_of L in
      exists b; split;
      [ cbn; rewrite <- ?app_assoc; reflexivity
      | unfold releases; cbn; rewrite ?filter_app, ?length_app; cbn;
        try match goal with
        | H : forallb cleanup_event ?e = true |- _ =>
            fold (releases e); rewrite (cleanup_events_no_release e H)
        end; reflexivity ]
  end.

Lemma present_truthy (v : Js.jsval) : present v <-> Js.truthy v = true.
Proof.
  split.
  - intros (s & -> & Hs). cbn. apply negb_true_iff, String.eqb_neq, Hs.
  - destruct v as [| |s]; cbn; try discriminate.
    intros H. exists s. split; [reflexivity|].
    apply String.eqb_neq, negb_true_iff, H.
Qed.

Lemma strict_eq_iff (a b : Js.jsval) : Js.strict_eq a b = true <-> a = b.
Proof.
  destruct a, b; cbn; split; try discriminate; try reflexivity.
  - intros H. apply String.eqb_eq in H. now subst.
  - intros H. injection H as ->. apply String.eqb_refl.
Qed.

(** ** Delete *)

(** C1.  Delete is atomic with respect to the books table.  The connection
    handed out by the pool has no transaction pending.  When no row has the
    id, the committed table is left as it was whatever the database answers,
    and when the database serves the four calls of that path (connect, BEGIN,
    SELECT, ROLLBACK) the response is 404 and the transaction is rolled back.
    When a row has the id and the database serves the five calls (connect,
    BEGIN, SELECT, DELETE, COMMIT), the row is gone from the committed table
    and the response is 200, whatever the stored URL reads as and whatever
    the bucket answers to the removal: both are arbitrary here. *)
Theorem delete_atomic (url_pathname : string -> option string) (id : Z)
    (w : world) :
  Store.tx (db w) = None ->
  let w' := snd (delete_book url_pathname id w) in
  (rows_with_id id w = [] ->
     Store.table (db w') = Store.table (db w) /\
     (serves 4 w ->
        sent w' = Some {| status := 404;
                          payload := Ack false "Buku tidak ditemukan" |} /\
        Store.tx (db w') = None)) /\
  (rows_with_id id w <> [] -> serves 5 w ->
     Store.table (db w') = without_id id (Store.table (db w)) /\
     sent w' = Some {| status := 200;
                       payload := Ack true "Buku berhasil dihapus" |} /\
     Store.tx (db w') = None).
Proof.
  destruct w as [[rows tx nid clk] objs dbs sts c n tr snt].
  unfold rows_with_id, serves, without_id. cbn. intros ->.
  split.
  - intros Hno. unfold_handlers. cbn.
    repeat (script; rewrite ?Hno; cbn); (split; [reflexivity|]); intros Hs;
      try discriminate Hs; try (split; reflexivity).
  - intros Hyes Hs. unfold_handlers. cbn.
    destruct (filter (Store.has_id id) rows) as [|b l] eqn:Hf; [congruence|].
    repeat (script; cbn in Hs; try discriminate Hs; rewrite ?Hf; cbn).
    all: use_cleanup.
    all: repeat (script; cbn in Hs; try discriminate Hs); known; conj;
      reflexivity.
Qed.

(** Every run of delete follows one of the paths: the statements go out in
    the order BEGIN, SELECT, DELETE, cleanup, COMMIT, and the run ends with
    404, with 200, with 500 after a rollback, or, when the rollback of the
    [catch] block is rejected, with no response at all. *)
Lemma delete_follows_path (url_pathname : string -> option string) (id : Z)
    (w : world) :
  exists evs,
    trace (snd (delete_book url_pathname id w)) = (trace w ++ evs)%list /\
    delete_path id evs.
Proof.
  destruct w as [[rows tx nid clk] objs dbs sts c n tr snt].
  unfold_handlers. cbn.
  repeat (script; cbn).
  all: try lookup.
  all: repeat (script; cbn).
  all: try use_cleanup.
  all: repeat (script; cbn).
  all: known.
  all: eexists; (split; [trace_eq|]).
  all: eauto 6 using recovery, delete_path.
Qed.

(** C2, where the code departs from the claim.  The pool hands out a dead
    connection: BEGIN is rejected and so is the ROLLBACK of the [catch]
    block.  Delete then ends in none of NOT_FOUND (404), COMMITTED (200) and
    ROLLED_BACK (500): the handler throws the second error, sends no
    response and logs nothing; the [finally] block alone runs.  The paths on
    which the rollback is served are those of [delete_follows_path]. *)
Theorem delete_rollback_rejected_sends_nothing :
  let run :=
    delete_book SampleUrl.pathname 1
      (Sample.world_of Sample.dead_connection []) in
  fst run = Thrown "Connection terminated unexpectedly" /\
  sent (snd run) = None /\
  trace (snd run) =
    [EConnect true; EClientQuery SqlBegin false;
     EClientQuery SqlRollback false; ERelease].
Proof. vm_compute. conj; reflexivity. Qed.

(** C9.  Every run of delete returns the connection it acquired, once, and
    last of all.  Whatever the database and the bucket answer, either the
    run acquired a connection and its events end with the one and only
    release, or [pool.connect()] was rejected and nothing is released; in
    both cases the pool holds as many connections out as before. *)
Theorem delete_releases_once (url_pathname : string -> option string) (id : Z)
    (w : world) :
  let w' := snd (delete_book url_pathname id w) in
  exists evs,
    trace w' = (trace w ++ evs)%list /\
    checked_out w' = checked_out w /\
    ((exists body,
        evs = EConnect true :: (body ++ [ERelease])%list /\
        releases body = 0%nat)
     \/ (exists rest, evs = EConnect false :: rest /\ releases rest = 0%nat)).
Proof.
  destruct w as [[rows tx nid clk] objs dbs sts c n tr snt].
  unfold_handlers. cbn.
  repeat (script; cbn).
  all: try (eexists; split; [trace_eq|]; split; [reflexivity|]; right;
            eexists; split; reflexivity).
  all: try lookup.
  all: repeat (script; cbn).
  all: try use_cleanup.
  all: repeat (script; cbn).
  all: known.
  all: eexists; (split; [trace_eq|]); (split; [reflexivity|]).
  all: left; released_last.
Qed.

(** ** Cleanup *)


Lemma append_empty_r (s : string) : (s ++ "")%string = s.
Proof. induction s as [|c s IH]; [reflexivity|]. cbn. now rewrite IH. Qed.

Lemma append_assoc (a b c : string) :
  ((a ++ b) ++ c)%string = (a ++ (b ++ c))%string.
Proof. induction a as [|x a IH]; [reflexivity|]. cbn. now rewrite IH. Qed.

Lemma prefix_append (a b : string) : String.prefix a (a ++ b) = true.
Proof.
  induction a as [|x a IH]; [destruct b; reflexivity|].
  cbn. destruct (ascii_dec x x); [exact IH|contradiction].
Qed.

(** A path without the separator is one piece. *)
Lemma split_go_absent (sep s cur : string) :
  Js.includes s sep = false ->
  Js.split_go sep 0 cur s = [(cur ++ s)%string].
Proof.
  revert cur. induction s as [|c s IH]; intros cur H.
  - cbn. now rewrite append_empty_r.
  - cbn [Js.includes] in H. apply orb_false_iff in H. destruct H as [Hp Hi].
    cbn [Js.split_go]. rewrite Hp. rewrite (IH _ Hi).
    now rewrite append_assoc.
Qed.

(** Dropping what is left of a separator just matched. *)
Lemma split_go_skip (sep x k cur : string) :
  Js.split_go sep (String.length x) cur (x ++ k) = Js.split_go sep 0 cur k.
Proof.
  induction x as [|c x IH]; [reflexivity|].
  cbn [String.length append Js.split_go]. exact IH.
Qed.

Lemma first_at_tail (sep : string) (c : ascii) (a k : string) :
  first_at sep (String c a) k -> first_at sep a k.
Proof.
  intros H a1 a2 E Hne. apply (H (String c a1) a2); [|exact Hne].
  cbn. now rewrite E.
Qed.

(** A path in which the separator occurs once is cut in two. *)
Lemma split_go_once (sep a k cur : string) :
  sep <> "" ->
  first_at sep a k ->
  Js.includes k sep = false ->
  Js.split_go sep 0 cur (a ++ sep ++ k) = [(cur ++ a)%string; k].
Proof.
  intros Hsep. revert cur. induction a as [|c a IH]; intros cur Hfirst Hk.
  - destruct sep as [|c0 sep']; [contradiction|].
    change ("" ++ String c0 sep' ++ k)%string
      with (String c0 (sep' ++ k)%string).
    cbn [Js.split_go].
    change (String c0 (sep' ++ k)%string) with (String c0 sep' ++ k)%string.
    rewrite prefix_append. cbn [String.length Nat.pred].
    rewrite split_go_skip, (split_go_absent _ _ _ Hk), append_empty_r.
    reflexivity.
  - change (String c a ++ sep ++ k)%string
      with (String c (a ++ sep ++ k)%string).
    cbn [Js.split_go].
    change (String c (a ++ sep ++ k)%string)
      with (String c a ++ sep ++ k)%string.
    rewrite (Hfirst "" (String c a) eq_refl) by discriminate.
    rewrite (IH _ (first_at_tail _ _ _ _ Hfirst) Hk), append_assoc.
    reflexivity.
Qed.

(** Without the bucket segment in the path there is no key. *)
Lemma key_absent (p : string) :
  Js.includes p "/ebook-pdf/" = false -> key_of_path p = None.
Proof.
  intros H. unfold key_of_path, Js.split.
  now rewrite (split_go_absent _ _ _ H).
Qed.

(** When the bucket segment occurs once in the path, the key is everything
    after it. *)
Lemma key_after_segment (a k : string) :
  first_at "/ebook-pdf/" a k ->
  Js.includes k "/ebook-pdf/" = false ->
  key_of_path (a ++ "/ebook-pdf/" ++ k) = Some k.
Proof.
  intros Hfirst Hk. unfold key_of_path, Js.split.
  assert (Hsep : "/ebook-pdf/" <> "") by (intros E; discriminate E).
  rewrite (split_go_once _ _ _ _ Hsep Hfirst Hk).
  reflexivity.
Qed.

(** With no key to delete the cleanup block calls nothing and warns of
    nothing. *)
Lemma object_cleanup_no_key (url_pathname : string -> option string)
    (label : string) (u : Js.jsval) (p : string) (w : world) :
  url_pathname (Js.to_string u) = Some p ->
  key_of_path p = None \/ key_of_path p = Some "" ->
  object_cleanup url_pathname label u w =
  (Returned tt, add_event (ECleanup u) w).
Proof.
  intros Hp Hk.
  cbv beta delta [object_cleanup new_URL_pathname try_catch bind emit ret].
  rewrite Hp. destruct Hk as [-> | ->]; reflexivity.
Qed.

(** With a key the cleanup block asks the bucket to remove that key. *)
Lemma object_cleanup_key (url_pathname : string -> option string)
    (label : string) (u : Js.jsval) (p k : string) (w : world) :
  url_pathname (Js.to_string u) = Some p ->
  key_of_path p = Some k -> k <> "" ->
  exists w' evs,
    object_cleanup url_pathname label u w = (Returned tt, w') /\
    trace w' = (trace w ++ ECleanup u :: ERemove k :: evs)%list /\
    removes evs = [].
Proof.
  intros Hp Hk Hne. apply String.eqb_neq in Hne.
  cbv beta delta [object_cleanup new_URL_pathname try_catch bind emit
    storage_remove console_warn next_remove throw ret].
  rewrite Hp, Hk, Hne. cbn.
  destruct (storage_script w) as [|[| |m] rest]; cbn;
    eexists; eexists; (conj; [reflexivity | trace_eq | reflexivity]).
Qed.

(** C5, where the code departs from the claim.  The key of the stored object
    is [a/ebook-pdf/b.pdf]: the path of its URL holds the segment
    [/ebook-pdf/] twice.  The key the handler asks the bucket to remove is
    [a], the piece between the two segments, not the part of the path after
    the bucket segment; the object [a] is removed and the object of the book
    stays.  A path with the segment once gives the part after it
    ([key_after_segment]) and a path without it gives no key and no remote
    call ([key_absent], [object_cleanup_no_key]). *)
Theorem key_stops_at_second_segment :
  let path := "/storage/v1/object/public/ebook-pdf/a/ebook-pdf/b.pdf" in
  let run := delete_book SampleUrl.pathname 2 (Sample.world_of [] []) in
  SampleUrl.pathname
    "https://x.supabase.co/storage/v1/object/public/ebook-pdf/a/ebook-pdf/b.pdf"
  = Some path /\
  key_of_path path = Some "a" /\
  removes (trace (snd run)) = ["a"] /\
  objects (snd run) = ["a.pdf"; "a/ebook-pdf/b.pdf"].
Proof. vm_compute. conj; reflexivity. Qed.

(** ** Update *)

Lemma update_no_match (t d th p : option string) (i : Z) (rows : list Book.t) :
  filter (Store.has_id i) rows = [] ->
  map (fun b => if Store.has_id i b then Store.overwrite t d th p b else b) rows
  = rows.
Proof.
  induction rows as [|b rows IH]; [reflexivity|].
  cbn. destruct (Store.has_id i b); [discriminate|].
  intros H. now rewrite IH.
Qed.

Lemma trigger_iff (old pd : Js.jsval) :
  Js.truthy old && negb (Js.strict_eq old pd) = true <->
  present old /\ old <> pd.
Proof.
  rewrite andb_true_iff, negb_true_iff, present_truthy.
  split; intros [Ht Hn]; (split; [exact Ht|]).
  - intros He. apply strict_eq_iff in He. congruence.
  - destruct (Js.strict_eq old pd) eqn:E; [|reflexivity].
    apply strict_eq_iff in E. contradiction.
Qed.

(** What one run of the cleanup block does, exactly: it returns, asks the
    bucket for [bucket_calls] and leaves [bucket_after] behind. *)
Lemma object_cleanup_calls (url_pathname : string -> option string)
    (label : string) (u : Js.jsval) (w : world) :
  exists w' evs,
    object_cleanup url_pathname label u w = (Returned tt, w') /\
    db w' = db w /\ sent w' = sent w /\ db_script w' = db_script w /\
    client w' = client w /\ checked_out w' = checked_out w /\
    trace w' = (trace w ++ ECleanup u :: evs)%list /\
    cleanups evs = [] /\
    removes evs = bucket_calls url_pathname u /\
    objects w' = bucket_after (bucket_calls url_pathname u)
                   (storage_script w) (objects w).
Proof.
  cbv beta delta [object_cleanup new_URL_pathname try_catch bind emit
    storage_remove console_warn next_remove throw ret bucket_calls].
  destruct (url_pathname (Js.to_string u)) as [p|] eqn:Hp.
  - destruct (key_of_path p) as [k|] eqn:Hk.
    + destruct (String.eqb k "") eqn:Hke; cbn.
      * eexists; exists []. conj; reflexivity.
      * destruct (storage_script w) as [|[| |m] rest] eqn:Hs; cbn;
          eexists; eexists;
          (conj; [reflexivity | reflexivity | reflexivity | reflexivity
                 | reflexivity | reflexivity | trace_eq | reflexivity
                 | reflexivity | reflexivity ]).
    + cbn. eexists; exists []. conj; reflexivity.
  - cbn. eexists; eexists. conj; try reflexivity; try trace_eq.
Qed.

(** The calls are for the key that follows the bucket segment. *)
Lemma bucket_calls_key (url_pathname : string -> option string)
    (u : Js.jsval) (a k : string) :
  url_pathname (Js.to_string u) = Some (a ++ "/ebook-pdf/" ++ k)%string ->
  first_at "/ebook-pdf/" a k ->
  Js.includes k "/ebook-pdf/" = false ->
  k <> "" ->
  bucket_calls url_pathname u = [k].
Proof.
  intros Hp Hf Hk Hne. unfold bucket_calls.
  rewrite Hp, (key_after_segment a k Hf Hk).
  apply String.eqb_neq in Hne. rewrite Hne. reflexivity.
Qed.

(** A cleanup block in the goal, replaced by its exact effect. *)
Ltac use_calls :=
  match goal with
  | |- context [object_cleanup ?p ?l ?u ?W] =>
      let w1 := fresh "w1" in
      let evs := fresh "evs" in
      let E := fresh "E" in
      let Hdb := fresh "Hdb" in let Hsent := fresh "Hsent" in
      let Hscr := fresh "Hscr" in let Hcl := fresh "Hcl" in
      let Hco := fresh "Hco" in let Htr := fresh "Htr" in
      let Hc := fresh "Hc" in let Hr := fresh "Hr" in
      let Ho := fresh "Ho" in
      destruct (object_cleanup_calls p l u W)
        as (w1 & evs & E & Hdb & Hsent & Hscr & Hcl & Hco & Htr & Hc & Hr & Ho);
      rewrite E; cbn in Hdb, Hsent, Hscr, Hcl, Hco, Htr, Ho; known
  end.



(** C10.  Update makes no existence check.  When no row has the id, the
    response is never 404: it is 200 or 500; when the database serves the
    UPDATE, the table is left as it was, the response is the 200
    acknowledgement, and the cleanup is still made, once and for the old
    URL, whenever [old_pdf_url] carries a URL that differs from [pdf_url]:
    the calls to the bucket are those of the old URL, the bucket is what
    that call leaves, and for an old URL whose path holds [/ebook-pdf/]
    once, followed by a key [k], the bucket is called exactly once, for
    [k]. *)
Theorem update_without_existence_check
    (url_pathname : string -> option string) (id : Z) (req : Req.t)
    (w : world) :
  rows_with_id id w = [] ->
  let old := Req.old_pdf_url req in
  let w' := snd (put_book url_pathname id req w) in
  (exists r, sent w' = Some r /\ (status r = 200 \/ status r = 500)) /\
  (serves 1 w ->
     Store.table (db w') = Store.table (db w) /\
     sent w' = Some {| status := 200;
                       payload := Ack true "Buku berhasil diperbarui" |} /\
     (present old -> old <> Req.pdf_url req ->
        exists evs,
          trace w' = (trace w ++ evs)%list /\ cleanups evs = [old] /\
          removes evs = bucket_calls url_pathname old /\
          objects w' = bucket_after (bucket_calls url_pathname old)
                         (storage_script w) (objects w) /\
          forall a k,
            url_pathname (Js.to_string old)
            = Some (a ++ "/ebook-pdf/" ++ k)%string ->
            first_at "/ebook-pdf/" a k ->
            Js.includes k "/ebook-pdf/" = false ->
            k <> "" ->
            removes evs = [k])).
Proof.
  destruct req as [t1 pa1 s1 x1 a1 p1 l1 ti1 de1 th1 pd1 old1].
  destruct w as [[rows tx nid clk] objs dbs sts c n tr snt].
  unfold rows_with_id, serves. cbn. intros Hno. unfold_handlers. cbn.
  script.
  3: { split; [eexists; split; [reflexivity|right; reflexivity]|].
       intros H; discriminate H. }
  all: destruct (Js.truthy old1 && negb (Js.strict_eq old1 pd1)) eqn:Hc.
  all: try use_calls.
  all: (split; [eexists; split; [reflexivity|left; reflexivity]|]).
  all: intros _; rewrite (update_no_match _ _ _ _ _ _ Hno).
  all: (split; [reflexivity|]); (split; [reflexivity|]).
  all: intros Hp Hn.
  all: try (eexists; (split; [trace_eq|]);
            rewrite ?cleanups_app, ?removes_app; cbn;
            rewrite ?cleanups_app, ?removes_app, ?app_nil_r, Hc0; cbn;
            (split; [reflexivity|]);
            (split; [exact Hr|]); (split; [exact Ho|]);
            intros a k Hu Hf Hk Hne; rewrite Hr;
            apply (bucket_calls_key url_pathname old1 a k Hu Hf Hk Hne)).
  all: exfalso.
  all: assert (Ht : Js.truthy old1 && negb (Js.strict_eq old1 pd1) = true)
         by (apply trigger_iff; auto).
  all: congruence.
Qed.

(** ** The paged list *)

(** A value [parseInt] reads as [NaN] or as zero gives way to the default. *)
Lemma or_default_falls_back (v : option string) (d : Z) :
  parse_query v = None \/ parse_query v = Some 0 ->
  Js.or_default (parse_query v) d = d.
Proof. intros [-> | ->]; reflexivity. Qed.

(** Any other value is used as it is, negative ones included. *)
Lemma or_default_keeps (v : option string) (n d : Z) :
  parse_query v = Some n -> n <> 0 -> Js.or_default (parse_query v) d = n.
Proof.
  intros -> Hn. cbn. destruct (n =? 0) eqn:E; [|reflexivity].
  apply Z.eqb_eq in E. contradiction.
Qed.

(** [ceil_div a b] is the least [k] with [a <= b * k]. *)
Lemma ceil_div_spec (a b : Z) :
  0 < b -> b * (Js.ceil_div a b - 1) < a <= b * Js.ceil_div a b.
Proof.
  intros Hb. unfold Js.ceil_div.
  pose proof (Z.mul_div_le (- a) b Hb).
  pose proof (Z.mul_succ_div_gt (- a) b Hb).
  nia.
Qed.

(** With a positive page and limit and a database that serves, the page of
    rows starts at offset [(page - 1) * limit] and [totalPages] is
    [ceil (totalBooks / limit)]. *)
Lemma get_books_page (req : Req.t) (w : world) :
  let page := Js.or_default (parse_query (Req.page req)) 1 in
  let limit := Js.or_default (parse_query (Req.limit req)) 5 in
  let totalBooks := Z.of_nat (List.length (Store.table (db w))) in
  0 < page -> 0 < limit -> serves 2 w ->
  sent (snd (get_books req w)) =
    Some {| status := 200;
            payload :=
              BookPage
                (firstn (Z.to_nat limit)
                   (skipn (Z.to_nat ((page - 1) * limit))
                      (Store.order_desc (Store.table (db w)))))
                page (Js.ceil_div totalBooks limit) totalBooks |} /\
  limit * (Js.ceil_div totalBooks limit - 1) < totalBooks
    <= limit * Js.ceil_div totalBooks limit.
Proof.
  destruct req as [t1 pa1 s1 x1 a1 p1 l1 ti de th pd old].
  destruct w as [[rows tx nid clk] objs dbs sts c n tr snt].
  unfold get_books, serves. cbn [Req.page Req.limit db Store.table].
  generalize (Js.or_default (parse_query p1) 1) as page.
  generalize (Js.or_default (parse_query l1) 5) as limit.
  intros limit page Hp Hl Hs. split; [|apply ceil_div_spec; exact Hl].
  unfold_handlers. cbn.
  assert (Hneg : (limit <? 0) || ((page - 1) * limit <? 0) = false).
  { apply orb_false_iff. split; apply Z.ltb_ge; nia. }
  repeat (script; cbn in Hs; try discriminate Hs).
  all: unfold Store.pool_exec at 1, Store.eval; rewrite Hneg; cbn.
  all: repeat (script; cbn in Hs; try discriminate Hs).
  all: reflexivity.
Qed.

(** C6, where the code departs from the claim.  The request asks for
    [page=-1].  The page is not replaced by the default: [-1 || 1] is [-1],
    the offset is [(-1 - 1) * 5 = -10], the database rejects the negative
    OFFSET and the response is 500.  Values read as [NaN] or zero do fall
    back ([or_default_falls_back]), and with a positive page and limit the
    offset and [totalPages] are as claimed ([get_books_page]). *)
Theorem negative_page_is_not_defaulted :
  let req :=
    Sample.with_page (Some "-1")
      (Sample.request GetBooks (Some "admin_logged_in")) in
  let run := app SampleUrl.pathname req (Sample.world_of [] []) in
  Js.or_default (parse_query (Req.page req)) 1 = -1 /\
  trace (snd run) =
    [EPoolQuery (SqlSelectPage 5 (-10)) false;
     EError "LIMIT or OFFSET must not be negative"; ESend 500] /\
  sent (snd run) =
    Some {| status := 500; payload := Ack false "Server error" |}.
Proof. vm_compute. conj; reflexivity. Qed.

(** ** Create *)

Lemma missing_or_empty_falsy (v : Js.jsval) :
  missing_or_empty v <-> Js.truthy v = false.
Proof.
  split.
  - intros [->|[->| ->]]; reflexivity.
  - destruct v as [| |s]; cbn; unfold missing_or_empty; auto.
    intros H. apply negb_false_iff, String.eqb_eq in H. subst. auto.
Qed.

(** C7.  Create answers 400 exactly when one of [title],
    [thumbnail_base64], [pdf_url] is missing or empty, and then it sends no
    statement and leaves the database alone.  Otherwise, when the database
    serves the INSERT, the table gains one row whose key and timestamp come
    from the sequence and the clock of the database, and the response is the
    201 acknowledgement, which carries no record. *)
Theorem create_validation (req : Req.t) (w : world) :
  let invalid :=
    missing_or_empty (Req.title req) \/
    missing_or_empty (Req.thumbnail_base64 req) \/
    missing_or_empty (Req.pdf_url req) in
  let w' := snd (post_books req w) in
  (option_map status (sent w') = Some 400 <-> invalid) /\
  (invalid ->
     sent w' = Some {| status := 400;
                       payload := Ack false "Data tidak lengkap" |} /\
     db w' = db w /\ trace w' = (trace w ++ [ESend 400])%list) /\
  (~ invalid -> serves 1 w ->
     sent w' = Some {| status := 201;
                       payload := Ack true "Buku berhasil ditambahkan" |} /\
     Store.table (db w') = (Store.table (db w) ++ [created_row req (db w)])%list).
Proof.
  destruct req as [t1 pa1 s1 x1 a1 p1 l1 ti de th pd old].
  destruct w as [[rows tx nid clk] objs dbs sts c n tr snt].
  cbn. rewrite !missing_or_empty_falsy. unfold serves, created_row.
  unfold_handlers. cbn.
  destruct (Js.truthy ti), (Js.truthy th), (Js.truthy pd); cbn.
  2-8: split; [split; [auto|reflexivity]|];
       (split; [auto|]); intros H; exfalso; apply H; auto.
  script; cbn.
  all: split; [split; [discriminate|intros [H|[H|H]]; discriminate H]|].
  all: split; [intros [H|[H|H]]; discriminate H|].
  all: intros _ H; try discriminate H; split; reflexivity.
Qed.

(** ** The session gate *)

(** A request without the marker never reaches the handler behind the
    gate: the whole run is the answer of the gate. *)
Lemma gate_denies (url_pathname : string -> option string)
    (req : Req.t) (w : world) :
  Req.target req <> GetPublicBooks ->
  Req.session req <> Some "admin_logged_in" ->
  app url_pathname req w
  = (Returned tt,
     add_event (ESend (status (gate_answer req)))
       (set_sent (gate_answer req) w)).
Proof.
  destruct req as [t1 pa1 s1 x1 a1 p1 l1 ti de th pd old].
  cbn. intros Hr Hs.
  assert (Hc : match s1 with
               | Some s => String.eqb s "admin_logged_in"
               | None => false
               end = false).
  { destruct s1 as [s|]; [|reflexivity].
    apply String.eqb_neq. congruence. }
  unfold app, authMiddleware, gate_answer, isApiRequest. cbn.
  destruct t1; try congruence; rewrite Hc.
  all: match goal with
       | |- context [if ?b then respond _ _ else _] => destruct b
       end; reflexivity.
Qed.

(** C8, where the code departs from the claim.  A protected endpoint is
    addressed with another letter case: [DELETE /API/books/1] is routed to
    the delete handler, the router matching paths without regard to case,
    and carries no session cookie, no [Accept] header and no
    [X-Requested-With] header.  The gate tests
    [req.path.startsWith('/api/')] on the path as sent, finds no API request
    and answers with the redirect to the login page, status 302, not with
    the 401 body.  The handler does not run: the database and the bucket are
    left as they were and the only event is the response. *)
Theorem unauthenticated_upper_case_path_is_redirected
    (url_pathname : string -> option string) (w : world) :
  let req := Witness.anonymous in
  let w' := snd (app url_pathname req w) in
  routed req /\ protected_api (Req.target req) /\
  Req.session req <> Some "admin_logged_in" /\
  sent w' = Some {| status := 302; payload := RedirectTo "/login" |} /\
  db w' = db w /\ objects w' = objects w /\
  trace w' = (trace w ++ [ESend 302])%list.
Proof.
  cbv zeta.
  rewrite gate_denies; [|discriminate|discriminate].
  split; [reflexivity|].
  split; [right; right; right; left; exists 1; reflexivity|].
  split; [discriminate|].
  repeat split; reflexivity.
Qed.

(** ** The theorems at work on the sample world *)

Lemma delete_atomic_witness :
  Store.tx (db Witness.start) = None /\
  rows_with_id 9 Witness.start = [] /\ serves 4 Witness.start /\
  rows_with_id 1 Witness.start <> [] /\ serves 5 Witness.start /\
  (Store.table (db (snd (delete_book SampleUrl.pathname 9 Witness.start)))
   = Store.table (db Witness.start) /\
   sent (snd (delete_book SampleUrl.pathname 9 Witness.start))
   = Some {| status := 404; payload := Ack false "Buku tidak ditemukan" |}) /\
  (Store.table (db (snd (delete_book SampleUrl.pathname 1 Witness.start)))
   = without_id 1 (Store.table (db Witness.start)) /\
   sent (snd (delete_book SampleUrl.pathname 1 Witness.start))
   = Some {| status := 200; payload := Ack true "Buku berhasil dihapus" |}).
Proof.
  assert (H0 : Store.tx (db Witness.start) = None) by reflexivity.
  assert (Hno : rows_with_id 9 Witness.start = []) by reflexivity.
  assert (Hs4 : serves 4 Witness.start) by reflexivity.
  assert (Hyes : rows_with_id 1 Witness.start <> [])
    by (intros E; discriminate E).
  assert (Hs5 : serves 5 Witness.start) by reflexivity.
  destruct (delete_atomic SampleUrl.pathname 9 Witness.start H0) as [A _].
  destruct (delete_atomic SampleUrl.pathname 1 Witness.start H0) as [_ B].
  destruct (A Hno) as [A1 A2]. destruct (A2 Hs4) as [A3 _].
  destruct (B Hyes Hs5) as (B1 & B2 & _).
  repeat split; assumption.
Defined.


Lemma update_without_existence_check_witness :
  rows_with_id 9 Witness.start = [] /\ serves 1 Witness.start /\
  present Witness.old_url /\
  Witness.old_url <> Req.pdf_url Witness.update /\
  Store.table
    (db (snd (put_book SampleUrl.pathname 9 Witness.update Witness.start)))
  = Store.table (db Witness.start) /\
  sent (snd (put_book SampleUrl.pathname 9 Witness.update Witness.start))
  = Some {| status := 200; payload := Ack true "Buku berhasil diperbarui" |} /\
  exists evs,
    trace (snd (put_book SampleUrl.pathname 9 Witness.update Witness.start))
    = (trace Witness.start ++ evs)%list /\
    cleanups evs = [Witness.old_url] /\ removes evs = ["a.pdf"].
Proof.
  assert (Hno : rows_with_id 9 Witness.start = []) by reflexivity.
  assert (Hs : serves 1 Witness.start) by reflexivity.
  assert (Hp : present Witness.old_url).
  { eexists. split; [reflexivity|]. intros E; discriminate E. }
  assert (Hn : Witness.old_url <> Req.pdf_url Witness.update)
    by (intros E; discriminate E).
  assert (Hu : SampleUrl.pathname (Js.to_string Witness.old_url)
               = Some ("" ++ "/ebook-pdf/" ++ "a.pdf")%string) by reflexivity.
  assert (Hfirst : first_at "/ebook-pdf/" "" "a.pdf").
  { intros a1 a2 E Hne. destruct a1; [|discriminate E].
    cbn in E. subst a2. contradiction. }
  assert (Hk : Js.includes "a.pdf" "/ebook-pdf/" = false) by reflexivity.
  assert (Hne : "a.pdf" <> "") by (intros E; discriminate E).
  destruct (update_without_existence_check SampleUrl.pathname 9
              Witness.update Witness.start Hno) as [_ H].
  destruct (H Hs) as (H1 & H2 & H3).
  destruct (H3 Hp Hn) as (evs & Ht & Hc & _ & _ & Hkey).
  split; [exact Hno|]. split; [exact Hs|]. split; [exact Hp|].
  split; [exact Hn|]. split; [exact H1|]. split; [exact H2|].
  exists evs. split; [exact Ht|]. split; [exact Hc|].
  exact (Hkey "" "a.pdf" Hu Hfirst Hk Hne).
Defined.

Lemma create_validation_witness :
  ~ (missing_or_empty (Req.title Witness.create) \/
     missing_or_empty (Req.thumbnail_base64 Witness.create) \/
     missing_or_empty (Req.pdf_url Witness.create)) /\
  serves 1 Witness.start /\
  sent (snd (post_books Witness.create Witness.start))
  = Some {| status := 201; payload := Ack true "Buku berhasil ditambahkan" |} /\
  Store.table (db (snd (post_books Witness.create Witness.start)))
  = (Store.table (db Witness.start)
     ++ [created_row Witness.create (db Witness.start)])%list.
Proof.
  assert (Hv : ~ (missing_or_empty (Req.title Witness.create) \/
                  missing_or_empty (Req.thumbnail_base64 Witness.create) \/
                  missing_or_empty (Req.pdf_url Witness.create))).
  { intros [H|[H|H]]; destruct H as [H|[H|H]]; discriminate H. }
  assert (Hs : serves 1 Witness.start) by reflexivity.
  destruct (create_validation Witness.create Witness.start) as (_ & _ & H).
  destruct (H Hv Hs) as [H1 H2].
  repeat split; assumption.
Defined.

(** ** Scenarios *)

(** Create a book, list it, delete it, list again: 201, one row with the
    given [pdf_url], 200, no row. *)
Example scenario_create_list_delete :
  let create :=
    Sample.admin PostBooks (Js.JStr "A") (Js.JStr "x")
      (Js.JStr "https://store/ebook-pdf/a.pdf") Js.JUndefined in
  let list :=
    Sample.admin GetPublicBooks Js.JUndefined Js.JUndefined Js.JUndefined
      Js.JUndefined in
  let delete :=
    Sample.admin (DeleteBook 1) Js.JUndefined Js.JUndefined Js.JUndefined
      Js.JUndefined in
  let w1 := Sample.then_ create Sample.empty in
  let w2 := Sample.then_ list w1 in
  let w3 := Sample.then_ delete w2 in
  let w4 := Sample.then_ list w3 in
  option_map status (sent w1) = Some 201 /\
  option_map payload (sent w2) =
    Some (BookRows
            [{| Book.id := 1; Book.title := Some "A";
                Book.description := None;
                Book.thumbnail_base64 := Some "x";
                Book.pdf_url := Some "https://store/ebook-pdf/a.pdf";
                Book.created_at := 0 |}]) /\
  option_map status (sent w3) = Some 200 /\
  removes (trace w3) = ["a.pdf"] /\
  option_map payload (sent w4) = Some (BookRows []).
Proof. vm_compute. conj; reflexivity. Qed.

(** Update book 1 with a new PDF: the cleanup is attempted for the key of
    the old URL and the row holds the new URL. *)
Example scenario_update_replaces_pdf :
  let create :=
    Sample.admin PostBooks (Js.JStr "A") (Js.JStr "x")
      (Js.JStr "https://store/ebook-pdf/u1.pdf") Js.JUndefined in
  let update :=
    Sample.admin (PutBook 1) (Js.JStr "A") (Js.JStr "x")
      (Js.JStr "https://store/ebook-pdf/u2.pdf")
      (Js.JStr "https://store/ebook-pdf/u1.pdf") in
  let w2 := Sample.then_ update (Sample.then_ create Sample.empty) in
  option_map status (sent w2) = Some 200 /\
  removes (trace w2) = ["u1.pdf"] /\
  objects w2 = [] /\
  map Book.pdf_url (Store.table (db w2)) =
    [Some "https://store/ebook-pdf/u2.pdf"].
Proof. vm_compute. conj; reflexivity. Qed.

(** Pages of two over five books: three pages, the newest first. *)
Example scenario_pages :
  let create :=
    Sample.admin PostBooks (Js.JStr "A") (Js.JStr "x")
      (Js.JStr "https://store/ebook-pdf/a.pdf") Js.JUndefined in
  let list :=
    {| Req.target := GetBooks; Req.path := "/api/books";
       Req.session := Some "admin_logged_in";
       Req.xhr := false; Req.accept := None;
       Req.page := Some "3"; Req.limit := Some "2";
       Req.title := Js.JUndefined; Req.description := Js.JUndefined;
       Req.thumbnail_base64 := Js.JUndefined; Req.pdf_url := Js.JUndefined;
       Req.old_pdf_url := Js.JUndefined |} in
  let five :=
    Sample.then_ create
      (Sample.then_ create
         (Sample.then_ create
            (Sample.then_ create (Sample.then_ create Sample.empty)))) in
  match sent (Sample.then_ list five) with
  | Some {| status := 200;
            payload := BookPage books currentPage totalPages totalBooks |} =>
      map Book.id books = [1] /\ currentPage = 3 /\ totalPages = 3 /\
      totalBooks = 5
  | _ => False
  end.
Proof. vm_compute. conj; reflexivity. Qed.

(** ** Further properties: tactics *)

(** Case analysis on the next scripted answer, when the script is a
    variable. *)
Ltac script_var :=
  match goal with
  | |- context [match ?l with [] => _ | _ :: _ => _ end] =>
      is_var l;
      match type of l with
      | list db_outcome => destruct l as [|[|?m] ?rest]; cbn
      end
  end.

Ltac steps Hs := try (script_var; cbn in Hs; try discriminate Hs).

(** ** The public list and the pages *)

Lemma insert_desc_perm (b : Book.t) (l : list Book.t) :
  Permutation (Store.insert_desc b l) (b :: l).
Proof.
  induction l as [|x r IH]; [reflexivity|].
  cbn. destruct (Book.created_at x <=? Book.created_at b); [reflexivity|].
  rewrite IH. apply perm_swap.
Qed.

Lemma order_desc_perm (l : list Book.t) : Permutation (Store.order_desc l) l.
Proof.
  induction l as [|b l IH]; [reflexivity|].
  cbn. rewrite insert_desc_perm. now constructor.
Qed.

Lemma insert_desc_sorted (b : Book.t) (l : list Book.t) :
  sorted_desc l -> sorted_desc (Store.insert_desc b l).
Proof.
  induction l as [|x r IH]; cbn; [auto|].
  intros [Hx Hr].
  destruct (Book.created_at x <=? Book.created_at b) eqn:E.
  - apply Z.leb_le in E. cbn. repeat split; auto.
    constructor; [exact E|].
    eapply Forall_impl; [|exact Hx]. cbn. intros y Hy. lia.
  - apply Z.leb_gt in E. cbn. split; [|auto].
    eapply Permutation_Forall.
    + symmetry. apply insert_desc_perm.
    + constructor; [lia|exact Hx].
Qed.

Lemma order_desc_sorted (l : list Book.t) : sorted_desc (Store.order_desc l).
Proof.
  induction l as [|b l IH]; [exact I|].
  cbn. now apply insert_desc_sorted.
Qed.

(** X1.  The public list needs no session.  When the database serves the
    query, the response is 200 and its rows are the rows of the table, each
    once, the newest first; the database is left as it was. *)
Theorem public_list_complete_and_sorted (url_pathname : string -> option string)
    (req : Req.t) (w : world) :
  Req.target req = GetPublicBooks -> serves 1 w ->
  let w' := snd (app url_pathname req w) in
  exists rows,
    sent w' = Some {| status := 200; payload := BookRows rows |} /\
    Permutation rows (Store.table (db w)) /\
    sorted_desc rows /\
    db w' = db w.
Proof.
  destruct req as [t1 pa1 s1 x1 a1 p1 l1 ti de th pd old].
  destruct w as [[rows tx nid clk] objs dbs sts c n tr snt].
  cbn. intros -> Hs. unfold serves in Hs. cbn. unfold_handlers. cbn.
  script; cbn in Hs; try discriminate Hs.
  all: eexists; conj; [reflexivity | apply order_desc_perm
                      | apply order_desc_sorted | reflexivity].
Qed.

(** X2.  The two list handlers never throw and never write: whatever the
    query values and whatever the database answers, the handler returns, the
    response is 200 or 500, and the database and the bucket are left as they
    were. *)
Theorem lists_never_throw_nor_write (req : Req.t) (w : world) :
  (fst (get_public_books w) = Returned tt /\
   db (snd (get_public_books w)) = db w /\
   objects (snd (get_public_books w)) = objects w /\
   exists r, sent (snd (get_public_books w)) = Some r /\
             (status r = 200 \/ status r = 500)) /\
  (fst (get_books req w) = Returned tt /\
   db (snd (get_books req w)) = db w /\
   objects (snd (get_books req w)) = objects w /\
   exists r, sent (snd (get_books req w)) = Some r /\
             (status r = 200 \/ status r = 500)).
Proof.
  destruct req as [t1 pa1 s1 x1 a1 p1 l1 ti de th pd old].
  destruct w as [[rows tx nid clk] objs dbs sts c n tr snt].
  split.
  - unfold_handlers. cbn. script; conj; try reflexivity; eexists; split;
      try reflexivity; auto.
  - unfold get_books. cbn [Req.page Req.limit].
    generalize (Js.or_default (parse_query p1) 1) as page.
    generalize (Js.or_default (parse_query l1) 5) as limit.
    intros limit page. unfold_handlers. cbn.
    script.
    all: try (conj; try reflexivity; eexists; split; try reflexivity; auto; fail).
    all: unfold Store.pool_exec, Store.eval.
    all: destruct ((limit <? 0) || ((page - 1) * limit <? 0)); cbn.
    all: try script.
    all: conj; try reflexivity; eexists; split; try reflexivity; auto.
Qed.

Lemma firstn_add_skipn {A} (a b : nat) (l : list A) :
  firstn (a + b) l = (firstn a l ++ firstn b (skipn a l))%list.
Proof.
  revert l. induction a as [|a IH]; intros l; [reflexivity|].
  destruct l as [|x l]; cbn; [now rewrite firstn_nil|].
  now rewrite IH.
Qed.

Lemma chunks_concat {A} (l : list A) (L n : nat) :
  List.concat (map (fun p => firstn L (skipn (p * L) l)) (seq 0 n))
  = firstn (n * L) l.
Proof.
  induction n as [|n IH]; [reflexivity|].
  rewrite seq_S, map_app, List.concat_app, IH. cbn [map List.concat plus].
  rewrite app_nil_r, <- firstn_add_skipn. f_equal. lia.
Qed.

(** X3.  The pages partition the list.  With a positive limit [L] and a
    database that serves, the rows of the pages 1 to [totalPages], one after
    the other, are the whole table, the newest first: no row is lost and none
    comes twice. *)
Theorem pages_partition_the_list (reqs : nat -> Req.t) (w : world) (L : Z) :
  let N := Z.of_nat (List.length (Store.table (db w))) in
  let n := Z.to_nat (Js.ceil_div N L) in
  0 < L -> serves 2 w ->
  (forall p, (p < n)%nat ->
     parse_query (Req.page (reqs p)) = Some (Z.of_nat (S p)) /\
     parse_query (Req.limit (reqs p)) = Some L) ->
  List.concat (map (fun p => books_of (sent (snd (get_books (reqs p) w))))
            (seq 0 n))
  = Store.order_desc (Store.table (db w)).
Proof.
  intros N n HL Hs Hreq.
  assert (Hpage : forall p, In p (seq 0 n) ->
            books_of (sent (snd (get_books (reqs p) w)))
            = firstn (Z.to_nat L)
                (skipn (p * Z.to_nat L)
                   (Store.order_desc (Store.table (db w))))).
  { intros p Hp. apply in_seq in Hp. destruct (Hreq p) as [Hpg Hlm]; [lia|].
    pose proof (get_books_page (reqs p) w) as H. cbv zeta in H.
    rewrite Hpg, Hlm in H.
    assert (E1 : Js.or_default (Some (Z.of_nat (S p))) 1 = Z.of_nat (S p)).
    { unfold Js.or_default. destruct (Z.of_nat (S p) =? 0) eqn:E;
        [apply Z.eqb_eq in E; lia|reflexivity]. }
    assert (E2 : Js.or_default (Some L) 5 = L).
    { unfold Js.or_default. destruct (L =? 0) eqn:E;
        [apply Z.eqb_eq in E; lia|reflexivity]. }
    rewrite E1, E2 in H. destruct H as [H _]; [lia|lia|exact Hs|].
    rewrite H. cbn [books_of payload]. do 2 f_equal. nia. }
  rewrite (map_ext_in _ _ _ Hpage), chunks_concat.
  apply firstn_all2.
  rewrite (Permutation_length (order_desc_perm _)).
  pose proof (ceil_div_spec N L HL) as [_ Hc]. fold N in Hc. subst n. nia.
Qed.

(** X4.  The paged list within the range of exact numbers.  For a page and
    a limit that are positive and whose product is an integer a double holds
    exactly (the offset the code computes is then the integer
    [(page - 1) * limit], and a bigint for the database), and a database that
    serves the two statements, the answer is 200 with the pagination block
    of the request; the page holds at most [limit] rows, and a page beyond
    the last one is empty. *)
Theorem page_bounds (req : Req.t) (w : world) :
  let page := Js.or_default (parse_query (Req.page req)) 1 in
  let limit := Js.or_default (parse_query (Req.limit req)) 5 in
  let N := Z.of_nat (List.length (Store.table (db w))) in
  0 < page -> 0 < limit -> Js.exact (page * limit) -> serves 2 w ->
  exists books,
    sent (snd (get_books req w))
    = Some {| status := 200;
              payload := BookPage books page (Js.ceil_div N limit) N |} /\
    Z.of_nat (List.length books) <= limit /\
    (Js.ceil_div N limit < page -> books = []).
Proof.
  intros page limit N Hp Hl _ Hs.
  destruct (get_books_page req w Hp Hl Hs) as [H _].
  fold page in H. fold limit in H. fold N in H.
  eexists. split; [exact H|]. split.
  - pose proof (firstn_le_length (Z.to_nat limit)
      (skipn (Z.to_nat ((page - 1) * limit))
         (Store.order_desc (Store.table (db w))))). lia.
  - intros Hbeyond. rewrite skipn_all2; [now rewrite firstn_nil|].
    rewrite (Permutation_length (order_desc_perm _)).
    pose proof (ceil_div_spec N limit Hl) as [_ Hc]. fold N in Hc. nia.
Qed.

(** ** Create and update *)

(** X5.  Create and update never throw: whatever the body and whatever the
    database and the bucket answer, the handler returns and has sent a
    response, 400, 201 or 500 for create and 200 or 500 for update. *)
Theorem writes_always_answer (url_pathname : string -> option string)
    (id : Z) (req : Req.t) (w : world) :
  (fst (post_books req w) = Returned tt /\
   exists r, sent (snd (post_books req w)) = Some r /\
             (status r = 400 \/ status r = 201 \/ status r = 500)) /\
  (fst (put_book url_pathname id req w) = Returned tt /\
   exists r, sent (snd (put_book url_pathname id req w)) = Some r /\
             (status r = 200 \/ status r = 500)).
Proof.
  destruct req as [t1 pa1 s1 x1 a1 p1 l1 ti de th pd old].
  destruct w as [[rows tx nid clk] objs dbs sts c n tr snt].
  split.
  - unfold_handlers. cbn.
    destruct (Js.truthy ti), (Js.truthy th), (Js.truthy pd); cbn.
    2-8: split; [reflexivity|]; eexists; split; [reflexivity|auto].
    script_var; (split; [reflexivity|]); eexists; (split; [reflexivity|auto]).
  - unfold_handlers. cbn. script_var.
    3: { split; [reflexivity|]. eexists; split; [reflexivity|auto]. }
    all: destruct (Js.truthy old && negb (Js.strict_eq old pd)).
    all: try use_cleanup.
    all: cbn; (split; [reflexivity|]); eexists; (split; [reflexivity|auto]).
Qed.

(** X6.  When the database rejects the statement of create or update, the
    response is 500 with the message of the error, or [Server error] when the
    error has no message, and the database is left as it was.  For create
    this is the case of a body that passes the validation; update validates
    nothing, so it holds for every body, and update then enters no cleanup
    and leaves the bucket alone. *)
Theorem rejected_write_answers_500 (url_pathname : string -> option string)
    (id : Z) (req : Req.t) (w : world) (m : string) (rest : list db_outcome) :
  db_script w = DbFail m :: rest ->
  let answer :=
    Some {| status := 500;
            payload := Ack false (message_or m "Server error") |} in
  (~ (missing_or_empty (Req.title req) \/
      missing_or_empty (Req.thumbnail_base64 req) \/
      missing_or_empty (Req.pdf_url req)) ->
   fst (post_books req w) = Returned tt /\
   sent (snd (post_books req w)) = answer /\
   db (snd (post_books req w)) = db w) /\
  (fst (put_book url_pathname id req w) = Returned tt /\
   sent (snd (put_book url_pathname id req w)) = answer /\
   db (snd (put_book url_pathname id req w)) = db w /\
   objects (snd (put_book url_pathname id req w)) = objects w /\
   exists evs,
     trace (snd (put_book url_pathname id req w)) = (trace w ++ evs)%list /\
     cleanups evs = [] /\ removes evs = []) /\
  message_or m "Server error" <> "".
Proof.
  destruct req as [t1 pa1 s1 x1 a1 p1 l1 ti de th pd old].
  destruct w as [[rows tx nid clk] objs dbs sts c n tr snt].
  cbn. intros ->. split; [|split].
  - intros Hv. rewrite !missing_or_empty_falsy in Hv.
    unfold_handlers. cbn.
    destruct (Js.truthy ti), (Js.truthy th), (Js.truthy pd);
      try (exfalso; apply Hv; auto; fail).
    cbn. conj; reflexivity.
  - unfold_handlers. cbn. conj; try reflexivity.
    eexists. split; [trace_eq|]. split; reflexivity.
  - unfold message_or. destruct (String.eqb m "") eqn:E.
    + discriminate.
    + apply String.eqb_neq. exact E.
Qed.

Lemma fold_insert_newest (b : Book.t) (acc rows : list Book.t) :
  Forall (fun r => Book.created_at r < Book.created_at b) rows ->
  fold_right Store.insert_desc (b :: acc) rows
  = b :: fold_right Store.insert_desc acc rows.
Proof.
  induction rows as [|r rows IH]; [reflexivity|].
  intros H. inversion H as [|? ? Hr Hrows]; subst.
  cbn. rewrite (IH Hrows). cbn.
  destruct (Book.created_at b <=? Book.created_at r) eqn:E;
    [apply Z.leb_le in E; lia|reflexivity].
Qed.

(** X7.  A created book heads the public list.  On a table whose
    timestamps are before the clock, with a database that serves, the list
    that follows a create starts with the created row, and the rows behind
    it are those of the table before. *)
Theorem created_book_is_listed_first (req : Req.t) (w : world) :
  wf_store (db w) -> healthy w ->
  ~ (missing_or_empty (Req.title req) \/
     missing_or_empty (Req.thumbnail_base64 req) \/
     missing_or_empty (Req.pdf_url req)) ->
  let w1 := snd (post_books req w) in
  let w2 := snd (get_public_books w1) in
  exists older,
    books_of (sent w2) = created_row req (db w) :: older /\
    Permutation older (Store.table (db w)).
Proof.
  destruct req as [t1 pa1 s1 x1 a1 p1 l1 ti de th pd old].
  destruct w as [[rows tx nid clk] objs dbs sts c n tr snt].
  unfold wf_store, wf_rows, healthy, created_row. cbn.
  intros [[_ Hwf] _] Hs Hv. rewrite !missing_or_empty_falsy in Hv.
  unfold_handlers. cbn.
  destruct (Js.truthy ti), (Js.truthy th), (Js.truthy pd);
    try (exfalso; apply Hv; auto; fail).
  destruct dbs as [|[|m] [|[|m'] rest]]; cbn in Hs; try discriminate Hs; cbn.
  all: try (eexists;
    (split;
     [ rewrite fold_right_app; cbn [fold_right]; unfold Store.insert_desc at 2;
       rewrite fold_insert_newest
         by (cbn; eapply Forall_impl; [|exact Hwf]; cbn; intros; lia);
       reflexivity
     | apply order_desc_perm ]); fail).
Qed.

Create HintDb wf.

Lemma wf_rows_filter (f : Book.t -> bool) (n c : Z) (l : list Book.t) :
  wf_rows n c l -> wf_rows n c (filter f l).
Proof.
  intros [Hd Hb]. split.
  - clear Hb. induction l as [|b l IH]; [constructor|].
    cbn in Hd. inversion Hd as [|? ? Hn Hd']; subst.
    cbn. destruct (f b); [|auto]. cbn. constructor; [|auto].
    intros Hin. apply Hn. apply in_map_iff in Hin.
    destruct Hin as (x & Hx & Hin). apply filter_In in Hin.
    apply in_map_iff. exists x. tauto.
  - apply Forall_forall. intros x Hx. apply filter_In in Hx.
    rewrite Forall_forall in Hb. apply Hb. tauto.
Qed.

Lemma wf_rows_overwrite (t d th p : option string) (i n c : Z)
    (l : list Book.t) :
  wf_rows n c l ->
  wf_rows n c
    (map (fun b => if Store.has_id i b then Store.overwrite t d th p b else b)
       l).
Proof.
  intros [Hd Hb]. split.
  - rewrite map_map.
    erewrite map_ext; [exact Hd|].
    intros b. cbn. destruct (Store.has_id i b); reflexivity.
  - apply Forall_map. eapply Forall_impl; [|exact Hb].
    intros b Hb'. cbn in *. destruct (Store.has_id i b); exact Hb'.
Qed.

Lemma wf_rows_later (n c : Z) (l : list Book.t) :
  wf_rows n c l -> wf_rows (n + 1) (c + 1) l.
Proof.
  intros [Hd Hb]. split; [exact Hd|].
  eapply Forall_impl; [|exact Hb]. cbn. intros; lia.
Qed.

Lemma wf_rows_insert (t d th p : option string) (n c : Z) (l : list Book.t) :
  wf_rows n c l ->
  wf_rows (n + 1) (c + 1)
    (l ++ [{| Book.id := n; Book.title := t; Book.description := d;
              Book.thumbnail_base64 := th; Book.pdf_url := p;
              Book.created_at := c |}]).
Proof.
  intros [Hd Hb]. split.
  - rewrite map_app. cbn. apply NoDup_app; [exact Hd|repeat constructor; auto|].
    intros x Hx [<-|[]]. apply in_map_iff in Hx.
    destruct Hx as (b & Hb1 & Hb2). rewrite Forall_forall in Hb.
    specialize (Hb b Hb2). lia.
  - apply Forall_app. split.
    + eapply Forall_impl; [|exact Hb]. cbn. intros; lia.
    + constructor; [cbn; lia|constructor].
Qed.

#[local] Hint Resolve wf_rows_filter wf_rows_overwrite wf_rows_later
  wf_rows_insert : wf.

Ltac wf_done :=
  unfold wf_store in *; cbn in *;
  repeat match goal with
         | H : _ /\ _ |- _ => destruct H
         end;
  try split; auto with wf.

Lemma get_public_books_wf (w : world) :
  wf_store (db w) -> wf_store (db (snd (get_public_books w))).
Proof.
  destruct w as [[rows tx nid clk] objs dbs sts c n tr snt].
  intros Hwf. unfold_handlers. cbn. script_var; exact Hwf.
Qed.

Lemma get_books_wf (req : Req.t) (w : world) :
  wf_store (db w) -> wf_store (db (snd (get_books req w))).
Proof.
  destruct req as [t1 pa1 s1 x1 a1 p1 l1 ti de th pd old].
  destruct w as [[rows tx nid clk] objs dbs sts c n tr snt].
  intros Hwf. unfold get_books. cbn [Req.page Req.limit].
  generalize (Js.or_default (parse_query p1) 1) as page.
  generalize (Js.or_default (parse_query l1) 5) as limit.
  intros limit page. unfold_handlers. cbn.
  script_var; try exact Hwf.
  all: unfold Store.pool_exec, Store.eval.
  all: destruct ((limit <? 0) || ((page - 1) * limit <? 0)); cbn.
  all: try script_var; exact Hwf.
Qed.

Lemma post_books_wf (req : Req.t) (w : world) :
  wf_store (db w) -> wf_store (db (snd (post_books req w))).
Proof.
  destruct req as [t1 pa1 s1 x1 a1 p1 l1 ti de th pd old].
  destruct w as [[rows tx nid clk] objs dbs sts c n tr snt].
  intros Hwf. unfold_handlers. cbn.
  destruct (Js.truthy ti), (Js.truthy th), (Js.truthy pd); cbn;
    try exact Hwf.
  script_var; try exact Hwf.
  all: destruct tx; wf_done.
Qed.

Lemma put_book_wf (url_pathname : string -> option string) (id : Z)
    (req : Req.t) (w : world) :
  wf_store (db w) -> wf_store (db (snd (put_book url_pathname id req w))).
Proof.
  destruct req as [t1 pa1 s1 x1 a1 p1 l1 ti de th pd old].
  destruct w as [[rows tx nid clk] objs dbs sts c n tr snt].
  intros Hwf. unfold_handlers. cbn. script_var; try exact Hwf.
  all: destruct (Js.truthy old && negb (Js.strict_eq old pd)).
  all: try use_cleanup.
  all: destruct tx; wf_done.
Qed.

Lemma delete_book_wf (url_pathname : string -> option string) (id : Z)
    (w : world) :
  wf_store (db w) -> wf_store (db (snd (delete_book url_pathname id w))).
Proof.
  destruct w as [[rows tx nid clk] objs dbs sts c n tr snt].
  intros Hwf. unfold_handlers. cbn.
  repeat (script_var; cbn).
  all: try exact Hwf.
  all: try lookup.
  all: repeat (script_var; cbn).
  all: try use_cleanup.
  all: repeat (script_var; cbn).
  all: known.
  all: destruct tx; wf_done.
Qed.

(** X8.  No request breaks the table.  If the keys of the rows are unique
    and below the next value of the sequence, and the timestamps before the
    clock, then so they are after any request, whoever sends it and whatever
    the database and the bucket answer. *)
Theorem handlers_keep_the_table_well_formed
    (url_pathname : string -> option string) (req : Req.t) (w : world) :
  wf_store (db w) -> wf_store (db (snd (app url_pathname req w))).
Proof.
  intros Hwf. unfold app, authMiddleware.
  destruct (Req.target req);
    try (destruct (match Req.session req with
                   | Some s => String.eqb s "admin_logged_in"
                   | None => false
                   end);
         [|match goal with
           | |- context [if ?b then respond 401 _ else _] =>
               destruct b; exact Hwf
           end]).
  - exact Hwf.
  - exact Hwf.
  - now apply get_public_books_wf.
  - now apply get_books_wf.
  - now apply post_books_wf.
  - now apply put_book_wf.
  - now apply delete_book_wf.
Qed.

(** X9.  Update replaces the four fields and nothing else.  When the
    database serves the UPDATE, the rows keep their keys and timestamps, in
    the same order; a row with the key of the request holds, for [title],
    [description], [thumbnail_base64] and [pdf_url], what the body holds
    (NULL for a field the body leaves out); a row with another key is a row
    of the table before. *)
Theorem update_overwrites_every_field (url_pathname : string -> option string)
    (id : Z) (req : Req.t) (w : world) :
  serves 1 w ->
  let rows := Store.table (db w) in
  let rows' := Store.table (db (snd (put_book url_pathname id req w))) in
  map Book.id rows' = map Book.id rows /\
  map Book.created_at rows' = map Book.created_at rows /\
  (forall b, In b rows' -> Book.id b = id ->
     Book.title b = sql_text (Req.title req) /\
     Book.description b = sql_text (Req.description req) /\
     Book.thumbnail_base64 b = sql_text (Req.thumbnail_base64 req) /\
     Book.pdf_url b = sql_text (Req.pdf_url req)) /\
  (forall b, In b rows' -> Book.id b <> id -> In b rows).
Proof.
  destruct req as [t1 pa1 s1 x1 a1 p1 l1 ti de th pd old].
  destruct w as [[rows tx nid clk] objs dbs sts c n tr snt].
  unfold serves. cbn. intros Hs. unfold_handlers. cbn.
  script_var; cbn in Hs; try discriminate Hs.
  all: destruct (Js.truthy old && negb (Js.strict_eq old pd)).
  all: try use_cleanup.
  all: cbn; conj.
  all: try (rewrite map_map; apply map_ext; intros b; unfold Store.has_id;
            destruct (Book.id b =? id); reflexivity).
  all: intros b Hin Hid; apply in_map_iff in Hin;
    destruct Hin as (b0 & <- & Hin); unfold Store.has_id in *;
    destruct (Book.id b0 =? id) eqn:Eid; cbn in *; auto.
  all: try (apply Z.eqb_neq in Eid; contradiction).
  all: try (apply Z.eqb_eq in Eid; contradiction).
Qed.

Lemma overwrite_twice (t d th p : option string) (i : Z) (rows : list Book.t) :
  let f := fun b => if Store.has_id i b then Store.overwrite t d th p b else b in
  map f (map f rows) = map f rows.
Proof.
  cbn. rewrite map_map. apply map_ext. intros b.
  destruct (Store.has_id i b) eqn:E; [|now rewrite E].
  unfold Store.has_id in *. cbn. now rewrite E.
Qed.

(** X10.  Update is idempotent on the table: with a database that serves,
    sending the same update again leaves the table and the response as the
    first update left them. *)
Theorem update_is_idempotent (url_pathname : string -> option string)
    (id : Z) (req : Req.t) (w : world) :
  healthy w ->
  let w1 := snd (put_book url_pathname id req w) in
  let w2 := snd (put_book url_pathname id req w1) in
  Store.table (db w2) = Store.table (db w1) /\
  sent w2 = sent w1.
Proof.
  destruct req as [t1 pa1 s1 x1 a1 p1 l1 ti de th pd old].
  destruct w as [[rows tx nid clk] objs dbs sts c n tr snt].
  unfold healthy. cbn. intros Hs. unfold_handlers. cbn.
  destruct dbs as [|[|m] [|[|m'] rest]]; cbn in Hs; try discriminate Hs; cbn.
  all: destruct (Js.truthy old && negb (Js.strict_eq old pd)).
  all: repeat use_cleanup.
  all: cbn; rewrite ?overwrite_twice; split; reflexivity.
Qed.

Lemma object_cleanup_key_run (url_pathname : string -> option string)
    (label : string) (u : Js.jsval) (p k : string) (w : world) :
  url_pathname (Js.to_string u) = Some p ->
  key_of_path p = Some k -> k <> "" ->
  object_cleanup url_pathname label u w =
  (Returned tt,
   bucket_answer label k (add_event (ERemove k) (add_event (ECleanup u) w))).
Proof.
  intros Hp Hk Hne. apply String.eqb_neq in Hne.
  cbv beta delta [object_cleanup new_URL_pathname try_catch bind emit
    storage_remove console_warn next_remove throw ret bucket_answer].
  rewrite Hp, Hk, Hne. cbn.
  destruct (storage_script w) as [|[| |m] rest]; reflexivity.
Qed.

(** X11.  An update that replaces the PDF removes the old object.  When
    [old_pdf_url] is a URL that differs from [pdf_url] and whose path holds
    [/ebook-pdf/] once, followed by the key [k], and the database serves
    the UPDATE: the response is 200, the one remote call is for [k], and the
    bucket loses [k], and only [k], when it answers the call; it is left as
    it was when the call fails. *)
Theorem update_removes_the_old_object
    (url_pathname : string -> option string) (id : Z) (req : Req.t)
    (w : world) (u a k : string) :
  serves 1 w ->
  Req.old_pdf_url req = Js.JStr u -> u <> "" ->
  Req.pdf_url req <> Js.JStr u ->
  url_pathname u = Some (a ++ "/ebook-pdf/" ++ k)%string ->
  first_at "/ebook-pdf/" a k ->
  Js.includes k "/ebook-pdf/" = false ->
  k <> "" ->
  let w' := snd (put_book url_pathname id req w) in
  sent w' = Some {| status := 200;
                    payload := Ack true "Buku berhasil diperbarui" |} /\
  exists evs,
    trace w' = (trace w ++ evs)%list /\
    removes evs = [k] /\
    objects w' =
      match storage_script w with
      | [] | RemoveOk :: _ =>
          filter (fun o => negb (String.eqb o k)) (objects w)
      | _ => objects w
      end.
Proof.
  intros Hs Hold Hu Hnew Hp Hfirst Hk Hne.
  pose proof (key_after_segment a k Hfirst Hk) as Hkey.
  remember (a ++ "/ebook-pdf/" ++ k)%string as p eqn:Ep. clear Ep Hfirst Hk.
  destruct req as [t1 pa1 s1 x1 a1 p1 l1 ti de th pd old].
  destruct w as [[rows tx nid clk] objs dbs sts c n tr snt].
  unfold serves in Hs. cbn in Hs, Hold, Hnew. subst old.
  assert (Hc : Js.truthy (Js.JStr u) && negb (Js.strict_eq (Js.JStr u) pd)
               = true).
  { apply trigger_iff. split; [exists u; auto|congruence]. }
  unfold_handlers. cbn [Req.title Req.description Req.thumbnail_base64
                        Req.pdf_url Req.old_pdf_url].
  rewrite Hc. cbn.
  steps Hs.
  all: rewrite (object_cleanup_key_run url_pathname _ (Js.JStr u) p k)
         by assumption.
  all: unfold bucket_answer; cbn.
  all: destruct sts as [|[| |m'] sts']; cbn.
  all: split; [reflexivity|].
  all: eexists; (split; [trace_eq|]); split; reflexivity.
Qed.

(** ** Delete *)

(** X12.  Delete writes the table only on the path that answers 200.  On
    a connection with no transaction pending, whatever the database and the
    bucket answer, either the committed table is as it was, or the rows of
    that key are gone, the transaction is closed and the response is the 200
    acknowledgement. *)
Theorem delete_writes_only_with_200 (url_pathname : string -> option string)
    (id : Z) (w : world) :
  Store.tx (db w) = None ->
  let w' := snd (delete_book url_pathname id w) in
  Store.table (db w') = Store.table (db w) \/
  (Store.table (db w') = without_id id (Store.table (db w)) /\
   sent w' = Some {| status := 200;
                     payload := Ack true "Buku berhasil dihapus" |} /\
   Store.tx (db w') = None).
Proof.
  destruct w as [[rows tx nid clk] objs dbs sts c n tr snt].
  cbn. intros ->. unfold_handlers. cbn.
  repeat (script_var; cbn).
  all: try (left; reflexivity).
  all: try lookup.
  all: repeat (script_var; cbn).
  all: try use_cleanup.
  all: repeat (script_var; cbn).
  all: known.
  all: try (left; reflexivity).
  all: right; conj; reflexivity.
Qed.

Lemma none_left (i : Z) (rows : list Book.t) :
  filter (Store.has_id i)
    (filter (fun b => negb (Store.has_id i b)) rows) = [].
Proof.
  induction rows as [|b rows IH]; [reflexivity|].
  cbn. destruct (Store.has_id i b) eqn:E; cbn; [exact IH|].
  now rewrite E.
Qed.

Lemma delete_not_found_run (url_pathname : string -> option string)
    (id : Z) (w : world) :
  Store.tx (db w) = None -> healthy w -> rows_with_id id w = [] ->
  let w' := snd (delete_book url_pathname id w) in
  sent w' = Some {| status := 404;
                    payload := Ack false "Buku tidak ditemukan" |} /\
  db w' = db w /\ objects w' = objects w /\ healthy w'.
Proof.
  destruct w as [[rows tx nid clk] objs dbs sts c n tr snt].
  unfold healthy, rows_with_id. cbn. intros -> Hs Hf. unfold_handlers. cbn.
  do 3 steps Hs.
  all: rewrite ?Hf; cbn.
  all: steps Hs.
  all: conj; try reflexivity; exact Hs.
Qed.

Lemma delete_found_run (url_pathname : string -> option string)
    (id : Z) (w : world) :
  Store.tx (db w) = None -> healthy w -> rows_with_id id w <> [] ->
  let w' := snd (delete_book url_pathname id w) in
  sent w' = Some {| status := 200;
                    payload := Ack true "Buku berhasil dihapus" |} /\
  db w' = {| Store.table := without_id id (Store.table (db w));
             Store.tx := None;
             Store.next_id := Store.next_id (db w);
             Store.clock := Store.clock (db w) |} /\
  healthy w'.
Proof.
  destruct w as [[rows tx nid clk] objs dbs sts c n tr snt].
  unfold healthy, rows_with_id. cbn. intros -> Hs Hyes. unfold_handlers. cbn.
  destruct (filter (Store.has_id id) rows) as [|b l] eqn:Hf; [congruence|].
  do 3 steps Hs.
  all: rewrite ?Hf; cbn.
  all: steps Hs.
  all: use_cleanup.
  all: steps Hs; known.
  all: conj; try reflexivity; exact Hs.
Qed.

(** X13.  Deleting twice: with a database that serves, a delete that
    follows a delete of the same key is answered 404 and leaves the table as
    the first one left it. *)
Theorem repeated_delete_answers_404 (url_pathname : string -> option string)
    (id : Z) (w : world) :
  Store.tx (db w) = None -> healthy w ->
  let w1 := snd (delete_book url_pathname id w) in
  let w2 := snd (delete_book url_pathname id w1) in
  sent w2 = Some {| status := 404;
                    payload := Ack false "Buku tidak ditemukan" |} /\
  Store.table (db w2) = Store.table (db w1).
Proof.
  intros Htx Hs w1 w2.
  assert (H1 : Store.tx (db w1) = None /\ healthy w1 /\ rows_with_id id w1 = []).
  { destruct (rows_with_id id w) as [|b l] eqn:Hf.
    - destruct (delete_not_found_run url_pathname id w Htx Hs Hf)
        as (_ & Hdb & _ & Hh).
      fold w1 in Hdb, Hh. unfold rows_with_id in *. rewrite Hdb. auto.
    - destruct (delete_found_run url_pathname id w Htx Hs) as (_ & Hdb & Hh).
      { rewrite Hf. discriminate. }
      fold w1 in Hdb, Hh. unfold rows_with_id. rewrite Hdb. cbn.
      conj; auto. apply none_left. }
  destruct H1 as (Htx1 & Hs1 & Hf1).
  destruct (delete_not_found_run url_pathname id w1 Htx1 Hs1 Hf1)
    as (Hsent & Hdb & _).
  fold w2 in Hsent, Hdb. rewrite Hdb. auto.
Qed.

Lemma post_books_run (req : Req.t) (w : world) :
  healthy w ->
  ~ (missing_or_empty (Req.title req) \/
     missing_or_empty (Req.thumbnail_base64 req) \/
     missing_or_empty (Req.pdf_url req)) ->
  let w' := snd (post_books req w) in
  sent w' = Some {| status := 201;
                    payload := Ack true "Buku berhasil ditambahkan" |} /\
  db w' = {| Store.table :=
               (Store.table (db w) ++ [created_row req (db w)])%list;
             Store.tx := Store.tx (db w);
             Store.next_id := Store.next_id (db w) + 1;
             Store.clock := Store.clock (db w) + 1 |} /\
  healthy w'.
Proof.
  destruct req as [t1 pa1 s1 x1 a1 p1 l1 ti de th pd old].
  destruct w as [[rows tx nid clk] objs dbs sts c n tr snt].
  unfold healthy, created_row. cbn. intros Hs Hv.
  rewrite !missing_or_empty_falsy in Hv. unfold_handlers. cbn.
  destruct (Js.truthy ti), (Js.truthy th), (Js.truthy pd);
    try (exfalso; apply Hv; auto; fail).
  cbn. steps Hs.
  all: conj; try reflexivity; exact Hs.
Qed.

Lemma without_new_id (n : Z) (b : Book.t) (rows : list Book.t) :
  Book.id b = n ->
  Forall (fun r => Book.id r < n) rows ->
  without_id n (rows ++ [b]) = rows.
Proof.
  intros Hb Hrows. unfold without_id. rewrite filter_app. cbn.
  unfold Store.has_id at 2. rewrite Hb, Z.eqb_refl. cbn. rewrite app_nil_r.
  induction Hrows as [|r rows Hr _ IH]; [reflexivity|].
  cbn. unfold Store.has_id at 1.
  destruct (Book.id r =? n) eqn:E; [apply Z.eqb_eq in E; lia|].
  cbn. now rewrite IH.
Qed.

(** X14.  Create, then delete the created key: on a well-formed table,
    with a database that serves, the delete is answered 200 and the table is
    the table before the create. *)
Theorem create_then_delete_restores_the_table
    (url_pathname : string -> option string) (req : Req.t) (w : world) :
  wf_store (db w) -> Store.tx (db w) = None -> healthy w ->
  ~ (missing_or_empty (Req.title req) \/
     missing_or_empty (Req.thumbnail_base64 req) \/
     missing_or_empty (Req.pdf_url req)) ->
  let w1 := snd (post_books req w) in
  let w2 := snd (delete_book url_pathname (Store.next_id (db w)) w1) in
  sent w2 = Some {| status := 200;
                    payload := Ack true "Buku berhasil dihapus" |} /\
  Store.table (db w2) = Store.table (db w).
Proof.
  intros [[_ Hwf] _] Htx Hs Hv w1 w2.
  destruct (post_books_run req w Hs Hv) as (_ & Hdb1 & Hs1). fold w1 in Hdb1, Hs1.
  assert (Htx1 : Store.tx (db w1) = None) by (rewrite Hdb1; exact Htx).
  assert (Hyes : rows_with_id (Store.next_id (db w)) w1 <> []).
  { unfold rows_with_id. rewrite Hdb1. cbn. rewrite filter_app. cbn.
    unfold Store.has_id at 2. cbn. rewrite Z.eqb_refl.
    intros E. apply app_eq_nil in E. destruct E as [_ E]. discriminate E. }
  destruct (delete_found_run url_pathname _ w1 Htx1 Hs1 Hyes) as (Hsent & Hdb2 & _).
  fold w2 in Hsent, Hdb2. split; [exact Hsent|].
  rewrite Hdb2, Hdb1. cbn. apply without_new_id; [reflexivity|].
  eapply Forall_impl; [|exact Hwf]. cbn. intros; lia.
Qed.

(** X15.  Delete removes the object of the book.  When the URL stored in
    the row has a path that holds [/ebook-pdf/] once, followed by the key
    [k], and the database serves the five calls: the one remote call is for
    [k], and the bucket loses [k], and only [k], when it answers the call;
    it is left as it was when the call fails. *)
Theorem delete_removes_the_object_of_the_book
    (url_pathname : string -> option string) (id : Z) (w : world)
    (b : Book.t) (others : list Book.t) (u a k : string) :
  Store.tx (db w) = None -> serves 5 w ->
  rows_with_id id w = b :: others ->
  Book.pdf_url b = Some u ->
  url_pathname u = Some (a ++ "/ebook-pdf/" ++ k)%string ->
  first_at "/ebook-pdf/" a k ->
  Js.includes k "/ebook-pdf/" = false ->
  k <> "" ->
  let w' := snd (delete_book url_pathname id w) in
  exists evs,
    trace w' = (trace w ++ evs)%list /\
    removes evs = [k] /\
    objects w' =
      match storage_script w with
      | [] | RemoveOk :: _ =>
          filter (fun o => negb (String.eqb o k)) (objects w)
      | _ => objects w
      end.
Proof.
  intros Htx Hs Hf Hu Hp Hfirst Hk Hne.
  pose proof (key_after_segment a k Hfirst Hk) as Hkey.
  remember (a ++ "/ebook-pdf/" ++ k)%string as p eqn:Ep. clear Ep Hfirst Hk.
  destruct w as [[rows tx nid clk] objs dbs sts c n tr snt].
  unfold serves, rows_with_id in *. cbn in Htx, Hs, Hf. subst tx.
  unfold_handlers. cbn.
  do 3 steps Hs.
  all: rewrite ?Hf; cbn.
  all: steps Hs.
  all: rewrite Hu; cbn.
  all: rewrite (object_cleanup_key_run url_pathname _ (Js.JStr u) p k)
         by assumption.
  all: unfold bucket_answer; cbn.
  all: destruct sts as [|[| |m'] sts']; cbn.
  all: steps Hs.
  all: eexists; (split; [trace_eq|]); split; reflexivity.
Qed.

Lemma object_cleanup_invalid_url (url_pathname : string -> option string)
    (label : string) (u : Js.jsval) (w : world) :
  url_pathname (Js.to_string u) = None ->
  object_cleanup url_pathname label u w =
  (Returned tt,
   add_event (EWarn (label ++ " Invalid URL")) (add_event (ECleanup u) w)).
Proof.
  intros Hp.
  cbv beta delta [object_cleanup new_URL_pathname try_catch bind emit
    console_warn throw ret].
  rewrite Hp. reflexivity.
Qed.

(** X16.  A stored URL the cleanup cannot use does not stop the delete.
    When the URL of the row does not parse, or its path has no [/ebook-pdf/]
    segment, and the database serves: the row is deleted, the response is
    200, no remote call is made and the bucket is left as it was; a warning
    is logged when the URL does not parse, none when the segment is
    missing. *)
Theorem delete_with_unusable_url (url_pathname : string -> option string)
    (id : Z) (w : world) (b : Book.t) (others : list Book.t) :
  Store.tx (db w) = None -> serves 5 w ->
  rows_with_id id w = b :: others ->
  let u := Js.to_string (column (Book.pdf_url b)) in
  url_pathname u = None \/
  (exists p, url_pathname u = Some p /\ Js.includes p "/ebook-pdf/" = false) ->
  let w' := snd (delete_book url_pathname id w) in
  sent w' = Some {| status := 200;
                    payload := Ack true "Buku berhasil dihapus" |} /\
  Store.table (db w') = without_id id (Store.table (db w)) /\
  objects w' = objects w /\
  exists evs,
    trace w' = (trace w ++ evs)%list /\
    removes evs = [] /\
    warnings evs =
      match url_pathname u with
      | None => ["Gagal hapus file Supabase (DB sudah dihapus): Invalid URL"]
      | Some _ => []
      end.
Proof.
  intros Htx Hs Hf u Hu.
  destruct w as [[rows tx nid clk] objs dbs sts c n tr snt].
  unfold serves, rows_with_id in *. cbn in Htx, Hs, Hf. subst tx.
  unfold_handlers. cbn.
  do 3 steps Hs.
  all: rewrite ?Hf; cbn.
  all: steps Hs.
  all: destruct Hu as [Hu|(p & Hu & Hp)].
  all: try (rewrite (object_cleanup_invalid_url _ _ _ _ Hu)).
  all: try (rewrite (object_cleanup_no_key _ _ _ p _ Hu
                       (or_introl (key_absent p Hp)))).
  all: cbn; steps Hs.
  all: subst u; rewrite Hu.
  all: conj; try reflexivity.
  all: eexists; (split; [trace_eq|]); split; reflexivity.
Qed.

Lemma object_cleanup_effects (url_pathname : string -> option string)
    (label : string) (u : Js.jsval) (w : world) :
  exists w' evs,
    object_cleanup url_pathname label u w = (Returned tt, w') /\
    db w' = db w /\ sent w' = sent w /\ db_script w' = db_script w /\
    client w' = client w /\ checked_out w' = checked_out w /\
    trace w' = (trace w ++ ECleanup u :: evs)%list /\
    ((removes evs = [] /\ objects w' = objects w) \/
     exists k, removes evs = [k] /\
               (objects w' = objects w \/
                objects w' =
                  filter (fun o => negb (String.eqb o k)) (objects w))).
Proof.
  cbv beta delta [object_cleanup new_URL_pathname try_catch bind emit
    storage_remove console_warn next_remove throw ret].
  destruct (url_pathname (Js.to_string u)) as [p|] eqn:Hp.
  - destruct (key_of_path p) as [k|] eqn:Hk.
    + destruct (String.eqb k "") eqn:Hke; cbn.
      * eexists; exists []. conj; try reflexivity. now left.
      * destruct (storage_script w) as [|[| |m] rest] eqn:Hst; cbn;
          eexists; eexists;
          (conj; [reflexivity | reflexivity | reflexivity | reflexivity
                 | reflexivity | reflexivity | trace_eq | ]);
          right; exists k; cbn; auto.
    + cbn. eexists; exists []. conj; try reflexivity. now left.
  - cbn. eexists; eexists. conj; try reflexivity; try trace_eq. now left.
Qed.

Ltac use_effects :=
  match goal with
  | |- context [object_cleanup ?p ?l ?u ?W] =>
      let w1 := fresh "w1" in
      let evs := fresh "evs" in
      let E := fresh "E" in
      let Hdb := fresh "Hdb" in let Hsent := fresh "Hsent" in
      let Hscr := fresh "Hscr" in let Hcl := fresh "Hcl" in
      let Hco := fresh "Hco" in let Htr := fresh "Htr" in
      let Hb := fresh "Hb" in
      destruct (object_cleanup_effects p l u W)
        as (w1 & evs & E & Hdb & Hsent & Hscr & Hcl & Hco & Htr & Hb);
      rewrite E; cbn in Hdb, Hsent, Hscr, Hcl, Hco, Htr, Hb; known
  end.

(** X17.  An update or a delete removes at most one object, and only one
    it asked for.  Whatever the request, the database and the bucket: either
    no remote call is made and the bucket is as it was, or one call is made,
    for a key [k], and the bucket is as it was or has lost [k] alone. *)
Theorem a_request_removes_at_most_one_object
    (url_pathname : string -> option string) (id : Z) (req : Req.t)
    (w : world) :
  let safe (w' : world) :=
    exists evs,
      trace w' = (trace w ++ evs)%list /\
      ((removes evs = [] /\ objects w' = objects w) \/
       exists k, removes evs = [k] /\
                 (objects w' = objects w \/
                  objects w' =
                    filter (fun o => negb (String.eqb o k)) (objects w))) in
  safe (snd (put_book url_pathname id req w)) /\
  safe (snd (delete_book url_pathname id w)).
Proof.
  destruct req as [t1 pa1 s1 x1 a1 p1 l1 ti de th pd old].
  destruct w as [[rows tx nid clk] objs dbs sts c n tr snt].
  cbn. split.
  - unfold_handlers. cbn. script_var.
    3: { eexists; split; [trace_eq|]. left. auto. }
    all: destruct (Js.truthy old && negb (Js.strict_eq old pd)).
    all: try (use_effects; eexists; (split; [trace_eq|]);
              rewrite ?removes_app; cbn; rewrite ?removes_app, ?app_nil_r;
              cbn; assumption).
    all: cbn; eexists; (split; [trace_eq|]); left; auto.
  - unfold_handlers. cbn.
    repeat (script_var; cbn).
    all: try (eexists; (split; [trace_eq|]); left; split; reflexivity).
    all: try lookup.
    all: repeat (script_var; cbn).
    all: try (eexists; (split; [trace_eq|]); left; split; reflexivity).
    all: use_effects.
    all: repeat (script_var; cbn).
    all: known.
    all: eexists; (split; [trace_eq|]);
      rewrite ?removes_app; cbn; rewrite ?removes_app, ?app_nil_r; cbn;
      assumption.
Qed.

(** ** The session *)

(** No spelling of [/dashboard] starts with [/api/]. *)
Lemma dashboard_path_is_no_api_path (p : string) :
  matches p GetDashboard = true -> Js.startsWith p "/api/" = false.
Proof.
  unfold matches, Js.startsWith. intros H.
  destruct (String.prefix "/api/" p) eqn:E; [exfalso|reflexivity].
  destruct p as [|c1 [|c2 r]]; try discriminate E.
  - cbn [String.prefix] in E.
    destruct (ascii_dec "/" c1); discriminate E.
  - cbn [String.prefix] in E.
    destruct (ascii_dec "/" c1); [|discriminate E].
    destruct (ascii_dec "a" c2); [|discriminate E].
    subst c1 c2. discriminate H.
Qed.

(** X18.  The gate of the dashboard page, for a request the router hands to
    it (the path [/dashboard] in any letter case, with or without a trailing
    slash).  With the logged-in marker the page is served; without it the
    answer is the 401 body when the request is an XHR or accepts
    [application/json], and a redirect to [/login] otherwise.  Nothing is
    written either way. *)
Theorem dashboard_gate (url_pathname : string -> option string)
    (req : Req.t) (w : world) :
  Req.target req = GetDashboard -> routed req ->
  let w' := snd (app url_pathname req w) in
  let wants_json :=
    Req.xhr req
    || match Req.accept req with
       | Some a => Js.includes a "application/json"
       | None => false
       end in
  db w' = db w /\ objects w' = objects w /\
  sent w' =
    Some (if match Req.session req with
             | Some s => String.eqb s "admin_logged_in"
             | None => false
             end
          then {| status := 200; payload := SendFile "dashboard.html" |}
          else if wants_json
               then {| status := 401;
                       payload :=
                         Ack false
                           "Akses ditolak. Silakan login terlebih dahulu." |}
               else {| status := 302; payload := RedirectTo "/login" |}).
Proof.
  intros Ht Hm. unfold routed in Hm. rewrite Ht in Hm.
  apply dashboard_path_is_no_api_path in Hm.
  unfold app, authMiddleware. rewrite Ht, Hm, orb_false_r. clear Ht Hm.
  destruct req as [t1 pa1 s1 x1 a1 p1 l1 ti de th pd old].
  cbn.
  destruct (match s1 with
            | Some s => String.eqb s "admin_logged_in"
            | None => false
            end); cbn; [auto|].
  destruct (x1 || match a1 with
                  | Some a => Js.includes a "application/json"
                  | None => false
                  end); cbn; auto.
Qed.

(** X19.  Login and the gate agree on the session.  When the username and
    the password of the body are the configured ones, the response is 200
    and the cookie it sets makes the browser hold the marker, with which
    [authMiddleware] lets any request through; otherwise the response is 401
    and no cookie is set. *)
Theorem login_opens_the_gate (env : Env.t) (username password : Js.jsval)
    (held : option string) :
  let effects := fst (post_login env username password) in
  let answer := snd (post_login env username password) in
  (username = Env.read (Env.ADMIN_USERNAME env) /\
   password = Env.read (Env.ADMIN_PASSWORD env) ->
   status answer = 200 /\
   session_after effects held = Some "admin_logged_in" /\
   forall req next,
     Req.session req = session_after effects held ->
     authMiddleware req next = next) /\
  (~ (username = Env.read (Env.ADMIN_USERNAME env) /\
      password = Env.read (Env.ADMIN_PASSWORD env)) ->
   status answer = 401 /\ effects = [] /\
   session_after effects held = held).
Proof.
  cbn. unfold post_login.
  destruct (Js.strict_eq username (Env.read (Env.ADMIN_USERNAME env))
            && Js.strict_eq password (Env.read (Env.ADMIN_PASSWORD env)))
    eqn:E.
  - apply andb_true_iff in E. rewrite !strict_eq_iff in E. split.
    + intros _. cbn. conj; try reflexivity.
      intros req next Hreq. unfold authMiddleware. rewrite Hreq. reflexivity.
    + intros H. contradiction.
  - split.
    + intros [Hu Hp]. apply strict_eq_iff in Hu, Hp. rewrite Hu, Hp in E.
      discriminate E.
    + intros _. cbn. auto.
Qed.

(** X20.  A login request that carries neither username nor password
    succeeds exactly when neither [ADMIN_USERNAME] nor [ADMIN_PASSWORD] is
    set: [undefined === undefined]. *)
Theorem login_without_configured_credentials (env : Env.t) :
  status (snd (post_login env Js.JUndefined Js.JUndefined)) = 200 <->
  Env.ADMIN_USERNAME env = None /\ Env.ADMIN_PASSWORD env = None.
Proof.
  unfold post_login.
  destruct env as [[u|] [p|] e]; cbn; split; try discriminate; auto.
  all: intros [H1 H2]; discriminate.
Qed.

(** X21.  Logout clears the session whoever asks, and what the browser
    holds afterwards opens no route behind the gate: the next request to one
    does not reach its handler and writes nothing.  It is answered 401 when
    it is an XHR, accepts [application/json] or has a path that starts with
    [/api/] as sent, and with the redirect to [/login] otherwise. *)
Theorem logout_closes_the_gate (url_pathname : string -> option string)
    (held : option string) (req : Req.t) (w : world) :
  Req.target req <> GetPublicBooks ->
  Req.session req = session_after (fst post_logout) held ->
  let w' := snd (app url_pathname req w) in
  let api :=
    Req.xhr req
    || match Req.accept req with
       | Some a => Js.includes a "application/json"
       | None => false
       end
    || Js.startsWith (Req.path req) "/api/" in
  let answer :=
    if api
    then {| status := 401;
            payload :=
              Ack false "Akses ditolak. Silakan login terlebih dahulu." |}
    else {| status := 302; payload := RedirectTo "/login" |} in
  status (snd post_logout) = 200 /\
  fst (app url_pathname req w) = Returned tt /\
  sent w' = Some answer /\
  db w' = db w /\ objects w' = objects w /\
  trace w' = (trace w ++ [ESend (status answer)])%list.
Proof.
  intros Hr Hs. cbv zeta.
  rewrite gate_denies; [|exact Hr|rewrite Hs; discriminate].
  unfold gate_answer, isApiRequest.
  repeat split; reflexivity.
Qed.

(** X22.  The gate without the marker.  A request to any route behind the
    gate (the dashboard and the five protected endpoints of the API) whose
    session cookie is not the logged-in marker does not reach the handler:
    the run returns, the database and the bucket are left as they were and
    the only event is the answer.  The answer is 401 with the structured
    body when the request is an XHR, accepts [application/json] or has a
    path that starts with [/api/] as sent, which is the case of every
    protected endpoint addressed by its lower-case path; it is the redirect
    to [/login] otherwise. *)
Theorem gate_without_marker (url_pathname : string -> option string)
    (req : Req.t) (w : world) :
  Req.target req <> GetPublicBooks ->
  Req.session req <> Some "admin_logged_in" ->
  let w' := snd (app url_pathname req w) in
  let api :=
    Req.xhr req
    || match Req.accept req with
       | Some a => Js.includes a "application/json"
       | None => false
       end
    || Js.startsWith (Req.path req) "/api/" in
  let denied :=
    {| status := 401;
       payload := Ack false "Akses ditolak. Silakan login terlebih dahulu." |} in
  let answer :=
    if api then denied
    else {| status := 302; payload := RedirectTo "/login" |} in
  fst (app url_pathname req w) = Returned tt /\
  sent w' = Some answer /\
  db w' = db w /\ objects w' = objects w /\
  trace w' = (trace w ++ [ESend (status answer)])%list /\
  (protected_api (Req.target req) ->
   Req.path req = route_path (Req.target req) ->
   sent w' = Some denied).
Proof.
  intros Hr Hs. cbv zeta.
  rewrite gate_denies; [|exact Hr|exact Hs].
  unfold gate_answer, isApiRequest.
  split; [reflexivity|]. split; [reflexivity|]. split; [reflexivity|].
  split; [reflexivity|]. split; [reflexivity|].
  intros Hp Hpath. cbn [snd sent set_sent add_event].
  assert (Hapi : Js.startsWith (Req.path req) "/api/" = true).
  { rewrite Hpath.
    destruct Hp as [-> | [-> | [[i ->] | [[i ->] | ->]]]]; reflexivity. }
  rewrite Hapi, orb_true_r. reflexivity.
Qed.


(** ** The further properties at work on the sample worlds *)

Lemma sample_store_wf : wf_store (db Witness.start).
Proof.
  split; [|exact I]. split.
  - cbn. repeat constructor; cbn; intuition discriminate.
  - cbn. repeat constructor; cbn; lia.
Defined.

Lemma sample_create_valid :
  ~ (missing_or_empty (Req.title Witness.create) \/
     missing_or_empty (Req.thumbnail_base64 Witness.create) \/
     missing_or_empty (Req.pdf_url Witness.create)).
Proof. intros [H|[H|H]]; destruct H as [H|[H|H]]; discriminate H. Defined.

Lemma sample_first_at : first_at "/ebook-pdf/" "" "a.pdf".
Proof.
  intros a1 a2 E Hne. destruct a1; [|discriminate E].
  cbn in E. subst a2. contradiction.
Defined.

Lemma public_list_complete_and_sorted_witness :
  Req.target Further.public = GetPublicBooks /\ serves 1 Witness.start /\
  exists rows,
    sent (snd (app SampleUrl.pathname Further.public Witness.start))
    = Some {| status := 200; payload := BookRows rows |} /\
    Permutation rows (Store.table (db Witness.start)) /\ sorted_desc rows.
Proof.
  assert (Ht : Req.target Further.public = GetPublicBooks) by reflexivity.
  assert (Hs : serves 1 Witness.start) by reflexivity.
  destruct (public_list_complete_and_sorted SampleUrl.pathname Further.public
              Witness.start Ht Hs) as (rows & H1 & H2 & H3 & _).
  split; [exact Ht|]. split; [exact Hs|].
  exists rows. split; [exact H1|]. split; [exact H2|exact H3].
Defined.

Lemma pages_partition_the_list_witness :
  0 < 1 /\ serves 2 Witness.start /\
  List.concat
    (map (fun p => books_of (sent (snd (get_books (Further.pages p)
                                          Witness.start))))
       (seq 0 2))
  = Store.order_desc (Store.table (db Witness.start)).
Proof.
  assert (HL : 0 < 1) by reflexivity.
  assert (Hs : serves 2 Witness.start) by reflexivity.
  split; [exact HL|]. split; [exact Hs|].
  apply (pages_partition_the_list Further.pages Witness.start 1 HL Hs).
  intros p Hp. destruct p as [|[|p]].
  - split; reflexivity.
  - split; reflexivity.
  - exfalso. cbn in Hp. lia.
Defined.

Lemma page_bounds_witness :
  0 < Js.or_default (parse_query (Req.page Further.far_page)) 1 /\
  0 < Js.or_default (parse_query (Req.limit Further.far_page)) 5 /\
  Js.exact (Js.or_default (parse_query (Req.page Further.far_page)) 1
            * Js.or_default (parse_query (Req.limit Further.far_page)) 5) /\
  serves 2 Witness.start /\
  sent (snd (get_books Further.far_page Witness.start))
  = Some {| status := 200; payload := BookPage [] 3 1 2 |}.
Proof.
  assert (Hp : 0 < Js.or_default (parse_query (Req.page Further.far_page)) 1)
    by reflexivity.
  assert (Hl : 0 < Js.or_default (parse_query (Req.limit Further.far_page)) 5)
    by reflexivity.
  assert (He : Js.exact
                 (Js.or_default (parse_query (Req.page Further.far_page)) 1
                  * Js.or_default (parse_query (Req.limit Further.far_page)) 5))
    by (unfold Js.exact; vm_compute; intros E; discriminate E).
  assert (Hs : serves 2 Witness.start) by reflexivity.
  destruct (page_bounds Further.far_page Witness.start Hp Hl He Hs)
    as (books & H & _ & Hb).
  split; [exact Hp|]. split; [exact Hl|]. split; [exact He|].
  split; [exact Hs|].
  rewrite H. rewrite (Hb eq_refl). reflexivity.
Defined.

Lemma rejected_write_answers_500_witness :
  db_script Further.failing = [DbFail "boom"] /\
  sent (snd (post_books Witness.create Further.failing))
  = Some {| status := 500; payload := Ack false "boom" |} /\
  db (snd (post_books Witness.create Further.failing)) = db Further.failing /\
  sent (snd (put_book SampleUrl.pathname 1 Further.blank Further.failing))
  = Some {| status := 500; payload := Ack false "boom" |} /\
  db (snd (put_book SampleUrl.pathname 1 Further.blank Further.failing))
  = db Further.failing.
Proof.
  assert (Hd : db_script Further.failing = [DbFail "boom"]) by reflexivity.
  destruct (rejected_write_answers_500 SampleUrl.pathname 1 Witness.create
              Further.failing "boom" [] Hd) as (H & _).
  destruct (H sample_create_valid) as (_ & H1 & H2).
  destruct (rejected_write_answers_500 SampleUrl.pathname 1 Further.blank
              Further.failing "boom" [] Hd) as (_ & (_ & H3 & H4 & _) & _).
  split; [exact Hd|]. split; [exact H1|]. split; [exact H2|].
  split; [exact H3|exact H4].
Defined.

Lemma created_book_is_listed_first_witness :
  wf_store (db Witness.start) /\ healthy Witness.start /\
  exists older,
    books_of (sent (snd (get_public_books
                           (snd (post_books Witness.create Witness.start)))))
    = created_row Witness.create (db Witness.start) :: older.
Proof.
  assert (Hh : healthy Witness.start) by reflexivity.
  destruct (created_book_is_listed_first Witness.create Witness.start
              sample_store_wf Hh sample_create_valid) as (older & H & _).
  split; [exact sample_store_wf|]. split; [exact Hh|].
  exists older. exact H.
Defined.

Lemma handlers_keep_the_table_well_formed_witness :
  wf_store (db Witness.start) /\
  wf_store (db (snd (app SampleUrl.pathname Witness.create Witness.start))).
Proof.
  split; [exact sample_store_wf|].
  exact (handlers_keep_the_table_well_formed SampleUrl.pathname Witness.create
           Witness.start sample_store_wf).
Defined.

Lemma update_overwrites_every_field_witness :
  serves 1 Witness.start /\
  map Book.id
    (Store.table (db (snd (put_book SampleUrl.pathname 1 Witness.update
                             Witness.start))))
  = map Book.id (Store.table (db Witness.start)).
Proof.
  assert (Hs : serves 1 Witness.start) by reflexivity.
  destruct (update_overwrites_every_field SampleUrl.pathname 1 Witness.update
              Witness.start Hs) as (H & _).
  split; assumption.
Defined.

Lemma update_is_idempotent_witness :
  healthy Witness.start /\
  Store.table
    (db (snd (put_book SampleUrl.pathname 1 Witness.update
                (snd (put_book SampleUrl.pathname 1 Witness.update
                        Witness.start)))))
  = Store.table
      (db (snd (put_book SampleUrl.pathname 1 Witness.update Witness.start))).
Proof.
  assert (Hh : healthy Witness.start) by reflexivity.
  destruct (update_is_idempotent SampleUrl.pathname 1 Witness.update
              Witness.start Hh) as (H & _).
  split; assumption.
Defined.

Lemma update_removes_the_old_object_witness :
  serves 1 Witness.start /\
  Req.old_pdf_url Witness.update = Js.JStr "https://store/ebook-pdf/a.pdf" /\
  Req.pdf_url Witness.update <> Js.JStr "https://store/ebook-pdf/a.pdf" /\
  SampleUrl.pathname "https://store/ebook-pdf/a.pdf"
  = Some ("" ++ "/ebook-pdf/" ++ "a.pdf")%string /\
  exists evs,
    trace (snd (put_book SampleUrl.pathname 1 Witness.update Witness.start))
    = (trace Witness.start ++ evs)%list /\
    removes evs = ["a.pdf"].
Proof.
  assert (Hs : serves 1 Witness.start) by reflexivity.
  assert (Ho : Req.old_pdf_url Witness.update
               = Js.JStr "https://store/ebook-pdf/a.pdf") by reflexivity.
  assert (Hu : "https://store/ebook-pdf/a.pdf" <> "")
    by (intros E; discriminate E).
  assert (Hn : Req.pdf_url Witness.update
               <> Js.JStr "https://store/ebook-pdf/a.pdf")
    by (intros E; discriminate E).
  assert (Hp : SampleUrl.pathname "https://store/ebook-pdf/a.pdf"
               = Some ("" ++ "/ebook-pdf/" ++ "a.pdf")%string) by reflexivity.
  assert (Hk : Js.includes "a.pdf" "/ebook-pdf/" = false) by reflexivity.
  assert (Hne : "a.pdf" <> "") by (intros E; discriminate E).
  destruct (update_removes_the_old_object SampleUrl.pathname 1 Witness.update
              Witness.start _ "" "a.pdf" Hs Ho Hu Hn Hp sample_first_at Hk Hne)
    as (_ & evs & H1 & H2 & _).
  split; [exact Hs|]. split; [exact Ho|]. split; [exact Hn|].
  split; [exact Hp|]. exists evs. split; assumption.
Defined.

Lemma delete_writes_only_with_200_witness :
  Store.tx (db Witness.start) = None /\
  (Store.table (db (snd (delete_book SampleUrl.pathname 1 Witness.start)))
   = Store.table (db Witness.start) \/
   Store.table (db (snd (delete_book SampleUrl.pathname 1 Witness.start)))
   = without_id 1 (Store.table (db Witness.start))).
Proof.
  assert (H0 : Store.tx (db Witness.start) = None) by reflexivity.
  split; [exact H0|].
  destruct (delete_writes_only_with_200 SampleUrl.pathname 1 Witness.start H0)
    as [H|(H & _)]; [left|right]; exact H.
Defined.

Lemma repeated_delete_answers_404_witness :
  Store.tx (db Witness.start) = None /\ healthy Witness.start /\
  sent (snd (delete_book SampleUrl.pathname 1
               (snd (delete_book SampleUrl.pathname 1 Witness.start))))
  = Some {| status := 404; payload := Ack false "Buku tidak ditemukan" |}.
Proof.
  assert (H0 : Store.tx (db Witness.start) = None) by reflexivity.
  assert (Hh : healthy Witness.start) by reflexivity.
  destruct (repeated_delete_answers_404 SampleUrl.pathname 1 Witness.start
              H0 Hh) as (H & _).
  repeat split; assumption.
Defined.

Lemma create_then_delete_restores_the_table_witness :
  wf_store (db Witness.start) /\ Store.tx (db Witness.start) = None /\
  healthy Witness.start /\
  Store.table
    (db (snd (delete_book SampleUrl.pathname
                (Store.next_id (db Witness.start))
                (snd (post_books Witness.create Witness.start)))))
  = Store.table (db Witness.start).
Proof.
  assert (H0 : Store.tx (db Witness.start) = None) by reflexivity.
  assert (Hh : healthy Witness.start) by reflexivity.
  destruct (create_then_delete_restores_the_table SampleUrl.pathname
              Witness.create Witness.start sample_store_wf H0 Hh
              sample_create_valid) as (_ & H).
  split; [exact sample_store_wf|]. split; [exact H0|].
  split; [exact Hh|exact H].
Defined.

Lemma delete_removes_the_object_of_the_book_witness :
  Store.tx (db Witness.start) = None /\ serves 5 Witness.start /\
  rows_with_id 1 Witness.start = [Sample.book1] /\
  exists evs,
    trace (snd (delete_book SampleUrl.pathname 1 Witness.start))
    = (trace Witness.start ++ evs)%list /\
    removes evs = ["a.pdf"].
Proof.
  assert (H0 : Store.tx (db Witness.start) = None) by reflexivity.
  assert (Hs : serves 5 Witness.start) by reflexivity.
  assert (Hf : rows_with_id 1 Witness.start = [Sample.book1]) by reflexivity.
  assert (Hu : Book.pdf_url Sample.book1
               = Some "https://store/ebook-pdf/a.pdf") by reflexivity.
  assert (Hp : SampleUrl.pathname "https://store/ebook-pdf/a.pdf"
               = Some ("" ++ "/ebook-pdf/" ++ "a.pdf")%string) by reflexivity.
  assert (Hk : Js.includes "a.pdf" "/ebook-pdf/" = false) by reflexivity.
  assert (Hne : "a.pdf" <> "") by (intros E; discriminate E).
  destruct (delete_removes_the_object_of_the_book SampleUrl.pathname 1
              Witness.start Sample.book1 [] _ "" "a.pdf" H0 Hs Hf Hu Hp
              sample_first_at Hk Hne) as (evs & H1 & H2 & _).
  split; [exact H0|]. split; [exact Hs|]. split; [exact Hf|].
  exists evs. split; assumption.
Defined.

Lemma delete_with_unusable_url_witness :
  Store.tx (db Further.foreign) = None /\ serves 5 Further.foreign /\
  rows_with_id 1 Further.foreign = [Further.foreign_book] /\
  sent (snd (delete_book SampleUrl.pathname 1 Further.foreign))
  = Some {| status := 200; payload := Ack true "Buku berhasil dihapus" |} /\
  objects (snd (delete_book SampleUrl.pathname 1 Further.foreign))
  = objects Further.foreign.
Proof.
  assert (H0 : Store.tx (db Further.foreign) = None) by reflexivity.
  assert (Hs : serves 5 Further.foreign) by reflexivity.
  assert (Hf : rows_with_id 1 Further.foreign = [Further.foreign_book])
    by reflexivity.
  assert (Hu : SampleUrl.pathname
                 (Js.to_string (column (Book.pdf_url Further.foreign_book)))
               = None \/
               exists p,
                 SampleUrl.pathname
                   (Js.to_string (column (Book.pdf_url Further.foreign_book)))
                 = Some p /\ Js.includes p "/ebook-pdf/" = false).
  { right. exists "/files/a.pdf". split; reflexivity. }
  destruct (delete_with_unusable_url SampleUrl.pathname 1 Further.foreign
              Further.foreign_book [] H0 Hs Hf Hu) as (H1 & _ & H3 & _).
  repeat split; assumption.
Defined.

Lemma dashboard_gate_witness :
  Req.target Further.dashboard = GetDashboard /\ routed Further.dashboard /\
  sent (snd (app SampleUrl.pathname Further.dashboard Witness.start))
  = Some {| status := 302; payload := RedirectTo "/login" |}.
Proof.
  assert (Ht : Req.target Further.dashboard = GetDashboard) by reflexivity.
  assert (Hm : routed Further.dashboard) by reflexivity.
  destruct (dashboard_gate SampleUrl.pathname Further.dashboard Witness.start
              Ht Hm) as (_ & _ & H).
  split; [exact Ht|]. split; [exact Hm|exact H].
Defined.

Lemma login_opens_the_gate_witness :
  (Js.JStr "admin" = Env.read (Env.ADMIN_USERNAME Further.env) /\
   Js.JStr "secret" = Env.read (Env.ADMIN_PASSWORD Further.env)) /\
  session_after
    (fst (post_login Further.env (Js.JStr "admin") (Js.JStr "secret"))) None
  = Some "admin_logged_in" /\
  ~ (Js.JStr "admin" = Env.read (Env.ADMIN_USERNAME Further.env) /\
     Js.JStr "guess" = Env.read (Env.ADMIN_PASSWORD Further.env)) /\
  status (snd (post_login Further.env (Js.JStr "admin") (Js.JStr "guess")))
  = 401.
Proof.
  assert (Hok : Js.JStr "admin" = Env.read (Env.ADMIN_USERNAME Further.env) /\
                Js.JStr "secret" = Env.read (Env.ADMIN_PASSWORD Further.env))
    by (split; reflexivity).
  assert (Hko : ~ (Js.JStr "admin"
                   = Env.read (Env.ADMIN_USERNAME Further.env) /\
                   Js.JStr "guess"
                   = Env.read (Env.ADMIN_PASSWORD Further.env)))
    by (intros [_ E]; discriminate E).
  destruct (login_opens_the_gate Further.env (Js.JStr "admin")
              (Js.JStr "secret") None) as [A _].
  destruct (login_opens_the_gate Further.env (Js.JStr "admin")
              (Js.JStr "guess") None) as [_ B].
  destruct (A Hok) as (_ & A2 & _). destruct (B Hko) as (B1 & _).
  split; [exact Hok|]. split; [exact A2|]. split; [exact Hko|exact B1].
Defined.

Lemma logout_closes_the_gate_witness :
  Req.target Further.signed_out <> GetPublicBooks /\
  Req.session Further.signed_out
  = session_after (fst post_logout) (Some "admin_logged_in") /\
  sent (snd (app SampleUrl.pathname Further.signed_out Witness.start))
  = Some {| status := 401;
            payload :=
              Ack false "Akses ditolak. Silakan login terlebih dahulu." |} /\
  db (snd (app SampleUrl.pathname Further.signed_out Witness.start))
  = db Witness.start.
Proof.
  assert (Hr : Req.target Further.signed_out <> GetPublicBooks)
    by (intros E; discriminate E).
  assert (Hs : Req.session Further.signed_out
               = session_after (fst post_logout) (Some "admin_logged_in"))
    by reflexivity.
  destruct (logout_closes_the_gate SampleUrl.pathname
              (Some "admin_logged_in") Further.signed_out Witness.start Hr Hs)
    as (_ & _ & H & Hd & _).
  split; [exact Hr|]. split; [exact Hs|]. split; [exact H|exact Hd].
Defined.

Lemma gate_without_marker_witness :
  Req.target Further.signed_out <> GetPublicBooks /\
  Req.session Further.signed_out <> Some "admin_logged_in" /\
  protected_api (Req.target Further.signed_out) /\
  Req.path Further.signed_out = route_path (Req.target Further.signed_out) /\
  sent (snd (app SampleUrl.pathname Further.signed_out Witness.start))
  = Some {| status := 401;
            payload :=
              Ack false "Akses ditolak. Silakan login terlebih dahulu." |} /\
  db (snd (app SampleUrl.pathname Further.signed_out Witness.start))
  = db Witness.start /\
  objects (snd (app SampleUrl.pathname Further.signed_out Witness.start))
  = objects Witness.start.
Proof.
  assert (Hr : Req.target Further.signed_out <> GetPublicBooks)
    by (intros E; discriminate E).
  assert (Hs : Req.session Further.signed_out <> Some "admin_logged_in")
    by (intros E; discriminate E).
  assert (Hp : protected_api (Req.target Further.signed_out)).
  { right. right. right. left. exists 1. reflexivity. }
  assert (Hpath : Req.path Further.signed_out
                  = route_path (Req.target Further.signed_out))
    by reflexivity.
  destruct (gate_without_marker SampleUrl.pathname Further.signed_out
              Witness.start Hr Hs) as (_ & _ & Hd & Ho & _ & H).
  split; [exact Hr|]. split; [exact Hs|]. split; [exact Hp|].
  split; [exact Hpath|]. split; [exact (H Hp Hpath)|].
  split; [exact Hd|exact Ho].
Defined.
